(** * json2vega: benchmark records to vega-lite specifications

    A shallow embedding of [scripts/json2vega.py] (Python 2, pandas, numpy)
    and the properties of its pipeline: record loading, filtering by a
    dictionary of conditions, projection on the chart axes, inference of the
    axis types, merge into the chart template, and the pipe through the
    [vl2vg] compiler.

    Layout: Python values and exceptions; the fragment of numpy and pandas
    the script calls; the file system and the object store; the classes of
    the script; then the lemmas. *)

From Stdlib Require Import ZArith QArith Qabs Lia.
From Stdlib Require Import Floats.SpecFloat.
From stdpp Require Import gmap strings list fin_maps.

Set Warnings "-register-all".
Local Open Scope string_scope.
Local Open Scope list_scope.

(** ** Python values *)

(** The scalars a benchmark record holds once [json.load] has read it:
    text, booleans, integers and floats.  A float is its IEEE 754 datum
    (sign, integer mantissa, binary exponent) as in the Standard Library's
    [spec_float]; it denotes [(-1)^s * m * 2^e]. *)
Inductive value :=
  | VStr (s : string)
  | VBool (b : bool)
  | VInt (z : Z)
  | VFloat (f : spec_float).

#[global] Instance spec_float_eq_dec : EqDecision spec_float.
Proof. solve_decision. Defined.

#[global] Instance value_eq_dec : EqDecision value.
Proof. solve_decision. Defined.

(** What [json.load] returns in general: the chart templates are nested. *)
Inductive json :=
  | JNull
  | JScalar (v : value)
  | JList (l : list json)
  | JDict (m : gmap string json).

(** The exceptions the script can run into.  It defines no exception class
    of its own and catches nothing: what the libraries raise propagates. *)
Inductive exn :=
  | KeyError (k : string)
  | TypeError
  | ValueError
  | IOError (path : string)
  | OSError (path : string)
  | AttributeError (name : string).

Inductive result (A : Type) :=
  | Ok (a : A)
  | Raise (e : exn).
Arguments Ok {A} a.
Arguments Raise {A} e.

#[global] Instance result_ret : MRet result := λ A a, Ok a.
#[global] Instance result_bind : MBind result := λ A B f r,
  match r with
  | Ok a => f a
  | Raise e => Raise e
  end.
#[global] Instance result_fmap : FMap result := λ A B f r,
  match r with
  | Ok a => Ok (f a)
  | Raise e => Raise e
  end.

Definition is_Ok {A} (r : result A) : Prop := ∃ a, r = Ok a.

(** A [for] loop whose body may raise. *)
Fixpoint for_each {A S : Type} (body : S → A → result S) (s : S) (l : list A)
  : result S :=
  match l with
  | [] => Ok s
  | a :: l' => s' ← body s a; for_each body s' l'
  end.

(** *** Floats *)

Module Float.

Local Open Scope Z_scope.

(** binary64 *)
Definition prec : Z := 53.
Definition emax : Z := 1024.

Definition nan : spec_float := S754_nan.

Definition signed (s : bool) (m : positive) : Z :=
  if s then Z.neg m else Z.pos m.

(** What a float denotes: a rational, an infinity, or nothing (NaN). *)
Inductive number :=
  | Finite (q : Q)
  | Inf (neg : bool)
  | NaN.

Definition to_number (f : spec_float) : number :=
  match f with
  | S754_zero _ => Finite 0
  | S754_infinity s => Inf s
  | S754_nan => NaN
  | S754_finite s m e =>
      if 0 <=? e then Finite (inject_Z (signed s m * 2 ^ e))
      else Finite (Qmake (signed s m) (Z.to_pos (2 ^ (- e))))
  end.

(** The rational a finite float denotes. *)
Definition to_Q (f : spec_float) : option Q :=
  match to_number f with
  | Finite q => Some q
  | _ => None
  end.

(** IEEE equality of what two numbers denote: NaN equals nothing. *)
Definition number_eqb (a b : number) : bool :=
  match a, b with
  | Finite p, Finite q => Qeq_bool p q
  | Inf s, Inf t => Bool.eqb s t
  | _, _ => false
  end.

(** int to float64.  Up to [2^53] in magnitude the conversion is exact and
    the datum is written with exponent 0; beyond, it rounds to nearest. *)
Definition of_Z (z : Z) : spec_float :=
  if Z.abs z <=? 2 ^ prec then
    match z with
    | Z0 => S754_zero false
    | Z.pos m => S754_finite false m 0
    | Z.neg m => S754_finite true m 0
    end
  else binary_normalize prec emax z 0 false.

(** Round [n / d] ([d] positive) to the nearest integer, a tie to the even
    neighbour: the IEEE roundToIntegralTiesToEven that C's [rint] computes
    in the default rounding mode. *)
Definition round_half_even (n d : Z) : Z :=
  let q := n / d in
  let r := n mod d in
  match 2 * r ?= d with
  | Lt => q
  | Gt => q + 1
  | Eq => if Z.even q then q else q + 1
  end.

(** [rint] on a double.  Zeros, infinities and NaN are returned as they
    are, and so is a float with a non-negative exponent, an integer
    already.  Otherwise the magnitude [m / 2^(-e)] is rounded and the sign
    put back (rounding to even is symmetric); a result of magnitude 0
    keeps the sign, as a signed zero. *)
Definition rint (f : spec_float) : spec_float :=
  match f with
  | S754_finite s m e =>
      if 0 <=? e then f
      else
        match round_half_even (Z.pos m) (2 ^ (- e)) with
        | Z.pos n => S754_finite s n 0
        | _ => S754_zero s
        end
  | _ => f
  end.

End Float.

(** *** Equality of scalars *)

(** Python's [==] on scalars: text against text; booleans, integers and floats
    against each other by numeric value ([True == 1], [1 == 1.0]), a NaN
    equal to nothing; text never equal to a number. *)
Definition as_number (v : value) : option Float.number :=
  match v with
  | VStr _ => None
  | VBool b => Some (Float.Finite (inject_Z (if b then 1 else 0)))
  | VInt z => Some (Float.Finite (inject_Z z))
  | VFloat f => Some (Float.to_number f)
  end.

Definition py_eq (a b : value) : bool :=
  match a, b with
  | VStr s, VStr t => bool_decide (s = t)
  | _, _ =>
      match as_number a, as_number b with
      | Some x, Some y => Float.number_eqb x y
      | _, _ => false
      end
  end.

(** ** numpy and pandas, as far as the script uses them *)

Module pandas.

(** Storage types of a column.  [float16] only arises from [numpy.rint]
    on booleans. *)
Inductive dtype := float64 | float16 | int64 | bool_ | object_.

#[global] Instance dtype_eq_dec : EqDecision dtype.
Proof. solve_decision. Defined.

Definition is_bool (v : value) : bool :=
  match v with VBool _ => true | _ => false end.
Definition is_int (v : value) : bool :=
  match v with VInt _ => true | _ => false end.
Definition is_float (v : value) : bool :=
  match v with VFloat _ => true | _ => false end.

(** The storage type pandas chooses for a column of Python scalars: all
    booleans, all integers, integers and floats together (a missing entry
    is the float NaN), anything else is kept as objects.  A column with no
    entry at all is taken to hold objects. *)
Definition infer_dtype (vs : list value) : dtype :=
  match vs with
  | [] => object_
  | _ =>
      if forallb is_bool vs then bool_
      else if forallb is_int vs then int64
      else if forallb (λ v, is_int v || is_float v) vs then float64
      else object_
  end.

(** Storing a scalar in a column of a given type: in a float column the
    integers become floats. *)
Definition astype (dt : dtype) (v : value) : value :=
  match dt, v with
  | float64, VInt z => VFloat (Float.of_Z z)
  | _, _ => v
  end.

(** A row is kept with its index label.  The columns are not ordered:
    the script only ever reads them by name. *)
Record frame := Frame {
  dtypes : gmap string dtype;
  index_name : option string;
  index_dtype : dtype;
  rows : list (value * gmap string value)
}.

Record series := Series {
  name : option string;
  dtype_of : dtype;
  s_index_name : option string;
  s_index_dtype : dtype;
  items : list (value * value)
}.

(** A missing field reads as NaN. *)
Definition cell (r : gmap string value) (c : string) : value :=
  default (VFloat Float.nan) (r !! c).

(** [pandas.DataFrame(records)] on a list of dicts: one column for every
    key that occurs in some record, one row for every record, labelled
    with its position. *)
Definition column_dtypes (rs : list (gmap string value)) : gmap string dtype :=
  map_imap (λ c _, Some (infer_dtype ((λ r, cell r c) <$> rs)))
           (gset_to_gmap () (⋃ (dom <$> rs) : gset string)).

Definition row_of (dts : gmap string dtype) (r : gmap string value)
  : gmap string value :=
  map_imap (λ c dt, Some (astype dt (cell r c))) dts.

Definition DataFrame (rs : list (gmap string value)) : frame :=
  let dts := column_dtypes rs in
  {| dtypes := dts;
     index_name := None;
     index_dtype := int64;
     rows := imap (λ i r, (VInt (Z.of_nat i), row_of dts r)) rs |}.

(** [df[key]] *)
Definition getitem (df : frame) (key : string) : result series :=
  match dtypes df !! key with
  | None => Raise (KeyError key)
  | Some dt =>
      Ok {| name := Some key;
            dtype_of := dt;
            s_index_name := index_name df;
            s_index_dtype := index_dtype df;
            items := (λ ir, (ir.1, cell ir.2 key)) <$> rows df |}
  end.

(** [s == value]: the boolean mask, entry by entry.  Text against a
    column of numbers is unequal at every entry (pandas before 0.24 refuses
    that comparison with a [TypeError] instead). *)
Definition eq_scalar (s : series) (v : value) : list (value * bool) :=
  (λ iv, (iv.1, py_eq iv.2 v)) <$> items s.

(** [df.loc[mask]] for a mask computed from [df] itself: the rows whose
    flag is set, in their order, with their labels. *)
Definition loc (df : frame) (mask : list (value * bool)) : frame :=
  {| dtypes := dtypes df;
     index_name := index_name df;
     index_dtype := index_dtype df;
     rows := fst <$> filter (λ rm, rm.2.2 = true) (zip (rows df) mask) |}.

(** [df.set_index(key)]: the column becomes the index and leaves the
    columns.  Nothing is checked or merged: equal labels stay apart. *)
Definition set_index (df : frame) (key : string) : result frame :=
  match dtypes df !! key with
  | None => Raise (KeyError key)
  | Some dt =>
      Ok {| dtypes := delete key (dtypes df);
            index_name := Some key;
            index_dtype := dt;
            rows := (λ ir, (cell ir.2 key, delete key ir.2)) <$> rows df |}
  end.

(** [pandas.DataFrame(s)] on a series: a frame of one column. *)
Definition DataFrame_of_series (s : series) : frame :=
  let c := default "0" (name s) in
  {| dtypes := {[ c := dtype_of s ]};
     index_name := s_index_name s;
     index_dtype := s_index_dtype s;
     rows := (λ iv, (iv.1, {[ c := iv.2 ]})) <$> items s |}.

(** [df.reset_index()]: the index goes back among the columns under its
    name and the rows are numbered afresh.  An index of objects is
    converted to the type its labels have ([maybe_convert_objects]). *)
Definition reset_index (df : frame) : result frame :=
  let c := default "index" (index_name df) in
  match dtypes df !! c with
  | Some _ => Raise ValueError
  | None =>
      let dt := if decide (index_dtype df = object_)
                then infer_dtype (fst <$> rows df) else index_dtype df in
      Ok {| dtypes := <[ c := dt ]> (dtypes df);
            index_name := None;
            index_dtype := int64;
            rows := imap (λ i ir, (VInt (Z.of_nat i),
                                   <[ c := astype dt ir.1 ]> ir.2)) (rows df) |}
  end.

(** [df.to_dict(orient='records')] *)
Definition to_dict_records (df : frame) : list (gmap string value) :=
  snd <$> rows df.

(** [df[[c1, ..., cn]]] *)
Definition getitem_list (df : frame) (keys : list string) : result frame :=
  match filter (λ k, dtypes df !! k = None) keys with
  | k :: _ => Raise (KeyError k)
  | [] =>
      Ok {| dtypes := filter (λ kd, kd.1 ∈ keys) (dtypes df);
            index_name := index_name df;
            index_dtype := index_dtype df;
            rows := (λ ir, (ir.1, filter (λ kv, kv.1 ∈ keys) ir.2)) <$> rows df |}
  end.

(** [df.assign(key=s)] for a series computed from [df] itself. *)
Definition assign (df : frame) (key : string) (s : series) : frame :=
  {| dtypes := <[ key := dtype_of s ]> (dtypes df);
     index_name := index_name df;
     index_dtype := index_dtype df;
     rows := zip_with (λ ir iv, (ir.1, <[ key := iv.2 ]> ir.2)) (rows df) (items s) |}.

End pandas.

Module numpy.

Import pandas.

(** [numpy.rint] on one entry of a numeric column. *)
Definition rint_value (v : value) : value :=
  match v with
  | VFloat f => VFloat (Float.rint f)
  | VInt z => VFloat (Float.of_Z z)
  | VBool b => VFloat (Float.of_Z (if b then 1 else 0))
  | VStr _ => v
  end.

(** [numpy.rint(s)]: entry by entry on a numeric column, the result a
    float column; on a column of objects the call raises. *)
Definition rint (s : series) : result series :=
  match dtype_of s with
  | object_ => Raise TypeError
  | dt =>
      Ok {| name := name s;
            dtype_of := if decide (dt = bool_) then float16
                        else if decide (dt = float16) then float16 else float64;
            s_index_name := s_index_name s;
            s_index_dtype := s_index_dtype s;
            items := (λ iv, (iv.1, rint_value iv.2)) <$> items s |}
  end.

End numpy.

(** ** Strings and paths *)

Definition slash : Ascii.ascii := Ascii.ascii_of_nat 47.
Definition dot : Ascii.ascii := Ascii.ascii_of_nat 46.

Definition startswith (s p : string) : bool := String.prefix p s.

Definition lower_ascii (c : Ascii.ascii) : Ascii.ascii :=
  let n := Ascii.nat_of_ascii c in
  if (65 <=? n)%nat && (n <=? 90)%nat then Ascii.ascii_of_nat (n + 32) else c.

Fixpoint lower (s : string) : string :=
  match s with
  | EmptyString => EmptyString
  | String c r => String (lower_ascii c) (lower r)
  end.

Fixpoint has_slash (s : string) : bool :=
  match s with
  | EmptyString => false
  | String c r => Ascii.eqb c slash || has_slash r
  end.

(** [os.path.basename]: what follows the last slash. *)
Fixpoint basename (s : string) : string :=
  match s with
  | EmptyString => EmptyString
  | String c r =>
      if Ascii.eqb c slash || has_slash r then basename r else s
  end.

(** The extension of a file name without directory part: from its last dot
    on, unless only dots come before that dot.  [seen] tells whether a
    character other than a dot has been passed. *)
Fixpoint ext_from (seen : bool) (s : string) : option string :=
  match s with
  | EmptyString => None
  | String c r =>
      match ext_from (seen || negb (Ascii.eqb c dot)) r with
      | Some e => Some e
      | None => if Ascii.eqb c dot && seen then Some s else None
      end
  end.

(** [os.path.splitext(p)[1]] *)
Definition splitext_ext (p : string) : string :=
  default "" (ext_from false (basename p)).

(** ** The file system and the object store *)

Inductive file_content :=
  | Malformed
  | Document (j : json).

(** [dirs] is what [os.listdir] answers, [files] what [open] finds, both by
    the path as the script spells it.  [heap] holds the list objects:
    [class_input_jsons] is the reference bound to the class attribute
    [VegaGraphBase.__input_jsons], [instance_input_jsons] the references
    bound to the attribute of that name in the instances that have one. *)
Record world := World {
  dirs : gmap string (list string);
  files : gmap string file_content;
  heap : gmap nat (list json);
  class_input_jsons : nat;
  instance_input_jsons : gmap nat nat
}.

Definition listdir (w : world) (path : string) : result (list string) :=
  match dirs w !! path with
  | Some l => Ok l
  | None => Raise (OSError path)
  end.

(** [json.load(open(path))] *)
Definition json_load (w : world) (path : string) : result json :=
  match files w !! path with
  | None => Raise (IOError path)
  | Some Malformed => Raise ValueError
  | Some (Document j) => Ok j
  end.

(** ** The classes *)

(** The classes that can be instantiated ([VegaGraphBase] is abstract). *)
Inductive graph_class :=
  | VegaGraphBarBase
  | VegaGraphBar
  | VegaGraphScatter
  | VegaGraphHeatmap.

Record labels := Labels {
  l_engine_name : string;
  l_algorithm_name : string;
  l_x_axis : string;
  l_y_axis : string;
  l_file_suffix : string
}.

(** An instance: its identity, its class and its attributes. *)
Record graph := Graph {
  oid : nat;
  class_of : graph_class;
  output_path : string;
  input_path : string;
  config_dir : string;
  engine_name : string;
  algorithm_name : string;
  file_suffix : string;
  graph_type : string;
  conditions_dict : gmap string value;
  axes_vars : gmap string string;
  x_axis_label : string;
  y_axis_label : string
}.

(** The [__init__] chain: every class ends by setting [graph_type]. *)
Definition graph_type_of (c : graph_class) : string :=
  match c with
  | VegaGraphBarBase => "barbase"
  | VegaGraphBar => "bar"
  | VegaGraphScatter => "scatter"
  | VegaGraphHeatmap => "heatmap"
  end.

Definition init (c : graph_class) (id : nat)
    (output_path input_path config_dir : string) (l : labels)
    (conditions_dict : gmap string value) (axes_vars : gmap string string)
  : graph :=
  {| oid := id;
     class_of := c;
     output_path := output_path;
     input_path := input_path;
     config_dir := config_dir;
     engine_name := l_engine_name l;
     algorithm_name := l_algorithm_name l;
     file_suffix := l_file_suffix l;
     graph_type := graph_type_of c;
     conditions_dict := conditions_dict;
     axes_vars := axes_vars;
     x_axis_label := l_x_axis l;
     y_axis_label := l_y_axis l |}.

(** *** The attribute [__input_jsons] *)

(** Reading [self.__input_jsons]: the instance's own attribute if it has
    one, the class attribute otherwise. *)
Definition input_jsons_ref (self : graph) (w : world) : nat :=
  default (class_input_jsons w) (instance_input_jsons w !! oid self).

Definition input_jsons (self : graph) (w : world) : list json :=
  default [] (heap w !! input_jsons_ref self w).

(** [self.__input_jsons += l]: the list object the attribute reads as is
    extended in place ([list.__iadd__]) and then bound to the instance. *)
Definition iadd_input_jsons (self : graph) (l : list json) (w : world) : world :=
  let r := input_jsons_ref self w in
  {| dirs := dirs w;
     files := files w;
     heap := <[ r := (default [] (heap w !! r) ++ l)%list ]> (heap w);
     class_input_jsons := class_input_jsons w;
     instance_input_jsons := <[ oid self := r ]> (instance_input_jsons w) |}.

(** *** [read_json] *)

Definition eligible (self : graph) (f : string) : bool :=
  bool_decide (splitext_ext f = ".json")
  && startswith (basename f) (algorithm_name self)
  && negb (startswith (basename f) "_").

(** The loop over the directory.  An exception leaves the store as the
    iterations before it made it. *)
Fixpoint read_json_loop (self : graph) (fs : list string) (w : world)
  : result unit * world :=
  match fs with
  | [] => (Ok (), w)
  | f :: fs' =>
      if eligible self f then
        match json_load w (input_path self +:+ f) with
        | Raise e => (Raise e, w)
        | Ok j => read_json_loop self fs' (iadd_input_jsons self [j] w)
        end
      else read_json_loop self fs' w
  end.

Definition read_json (self : graph) (w : world) : result unit * world :=
  match listdir w (input_path self) with
  | Raise e => (Raise e, w)
  | Ok fs => read_json_loop self fs w
  end.

(** *** [read_config] *)

Definition config_path (self : graph) : string :=
  config_dir self +:+ "/" +:+ lower (graph_type self) +:+ "_config.json".

Definition read_config (self : graph) (w : world) : result json :=
  json_load w (config_path self).

(** *** Dictionaries *)

(** [d[k]] on a dict of the script's own. *)
Definition dict_getitem {A} (d : gmap string A) (k : string) : result A :=
  match d !! k with
  | Some a => Ok a
  | None => Raise (KeyError k)
  end.

(** [j[k]] and [j[k] = v] on what [json.load] returned: only a dict can be
    indexed by a string. *)
Definition py_getitem (j : json) (k : string) : result json :=
  match j with
  | JDict m => dict_getitem m k
  | _ => Raise TypeError
  end.

Definition py_setitem (j : json) (k : string) (v : json) : result json :=
  match j with
  | JDict m => Ok (JDict (<[ k := v ]> m))
  | _ => Raise TypeError
  end.

(** [j[p1]...[pn][k] = v]: the inner dict is reached by reading, then
    updated in place, so the update shows in [j]. *)
Fixpoint setitem_at (p : list string) (k : string) (v : json) (j : json)
  : result json :=
  match p with
  | [] => py_setitem j k v
  | k0 :: p' =>
      c ← py_getitem j k0;
      c' ← setitem_at p' k v c;
      py_setitem j k0 c'
  end.

(** Reading along a path of keys. *)
Fixpoint get_path (p : list string) (j : json) : option json :=
  match p with
  | [] => Some j
  | k :: p' =>
      match j with
      | JDict m => m !! k ≫= get_path p'
      | _ => None
      end
  end.

(** *** [parse_jsons] *)

(** An input document is a flat object of scalars; this reads it as one
    record.  Other documents are outside the embedding. *)
Definition scalar_of (j : json) : option value :=
  match j with
  | JScalar v => Some v
  | _ => None
  end.

Definition record_of (j : json) : gmap string value :=
  match j with
  | JDict m => omap scalar_of m
  | _ => ∅
  end.

Definition records_json (rs : list (gmap string value)) : json :=
  JList ((λ r, JDict (JScalar <$> r)) <$> rs).

(** [VegaGraphBase.parse_jsons]: all the loaded documents in one frame. *)
Definition base_parse_jsons (self : graph) (w : world) : pandas.frame :=
  pandas.DataFrame (record_of <$> input_jsons self w).

(** The loop over [conditions_dict], one and the same in the bar and the
    heatmap class:
    [df_restricted = df_restricted.loc[df_restricted[key] == value]]. *)
Definition restrict_step (df : pandas.frame) (kv : string * value)
  : result pandas.frame :=
  s ← pandas.getitem df kv.1;
  Ok (pandas.loc df (pandas.eq_scalar s kv.2)).

Definition restrict (conditions : gmap string value) (df : pandas.frame)
  : result pandas.frame :=
  for_each restrict_step df (map_to_list conditions).

(** [pandas.DataFrame(df.set_index(axes['x'])[axes['y']]).reset_index()] *)
Definition project_axes (axes : gmap string string) (df : pandas.frame)
  : result pandas.frame :=
  x ← dict_getitem axes "x";
  indexed ← pandas.set_index df x;
  y ← dict_getitem axes "y";
  s ← pandas.getitem indexed y;
  pandas.reset_index (pandas.DataFrame_of_series s).

(** The test on the storage type of an axis column. *)
Definition axis_type (df : pandas.frame) (column : string) : result string :=
  s ← pandas.getitem df column;
  Ok (if decide (pandas.dtype_of s = pandas.float64)
      then "quantitative" else "ordinal").

Definition set_axis_type (df : pandas.frame) (bar : json) (kc : string * string)
  : result json :=
  t ← axis_type df kc.2;
  setitem_at ["encoding"; kc.1] "type" (JScalar (VStr t)) bar.

Definition title (label : string) : json :=
  JDict {[ "title" := JScalar (VStr label) ]}.

Definition data_values (df : pandas.frame) : json :=
  JDict {[ "values" := records_json (pandas.to_dict_records df) ]}.

(** The part of [VegaGraphBarBase.parse_jsons] after [read_config]. *)
Definition complete_bar (axes : gmap string string) (x_label y_label : string)
    (df : pandas.frame) (bar : json) : result json :=
  bar ← py_setitem bar "data" (data_values df);
  y ← dict_getitem axes "y";
  bar ← setitem_at ["encoding"; "y"] "field" (JScalar (VStr y)) bar;
  bar ← setitem_at ["encoding"; "y"] "axis" (title y_label) bar;
  bar ← for_each (set_axis_type df) bar (map_to_list axes);
  x ← dict_getitem axes "x";
  bar ← setitem_at ["encoding"; "x"] "field" (JScalar (VStr x)) bar;
  setitem_at ["encoding"; "x"] "axis" (title x_label) bar.

Definition parse_jsons_barbase (self : graph) (w : world) : result json :=
  let pandas_df := base_parse_jsons self w in
  df_restricted ← restrict (conditions_dict self) pandas_df;
  df_restricted ← project_axes (axes_vars self) df_restricted;
  bar ← read_config self w;
  complete_bar (axes_vars self) (x_axis_label self) (y_axis_label self)
               df_restricted bar.

(** [df[['dataset','m_teps','alpha','beta']]], then
    [df.assign(m_teps_rounded=numpy.rint(df['m_teps']))] *)
Definition heatmap_columns (df : pandas.frame) : result pandas.frame :=
  df ← pandas.getitem_list df ["dataset"; "m_teps"; "alpha"; "beta"];
  m ← pandas.getitem df "m_teps";
  rounded ← numpy.rint m;
  Ok (pandas.assign df "m_teps_rounded" rounded).

Definition parse_jsons_heatmap (self : graph) (w : world) : result json :=
  let pandas_df := base_parse_jsons self w in
  df_restricted ← restrict (conditions_dict self) pandas_df;
  df_restricted ← heatmap_columns df_restricted;
  heatmap ← read_config self w;
  py_setitem heatmap "data" (data_values df_restricted).

(** Method resolution: the bar and the scatter class only call their
    parent's [parse_jsons]. *)
Definition parse_jsons (self : graph) (w : world) : result json :=
  match class_of self with
  | VegaGraphHeatmap => parse_jsons_heatmap self w
  | _ => parse_jsons_barbase self w
  end.

(** *** [pipe_vl2vg] and [run] *)

(** The compiler process is outside: it is a function from what it reads on
    its input to its exit status and what it writes on its output.
    [json.dumps] is a parameter as well. *)
Record process := Process {
  returncode : Z;
  stdout : string
}.

Section Run.

Variable dumps : json → string.
Variable vl2vg : string → process.

(** [p.communicate(input=json.dumps(json_in))[0]]: the exit status is not
    looked at. *)
Definition pipe_vl2vg (json_in : json) : result string :=
  let p := vl2vg (dumps json_in) in
  Ok (stdout p).

(** [run] imports [write_to_file] from [utils], which is not among the
    sources, and calls it on the output of the compiler: the writer is a
    parameter. *)
Variable write_to_file : graph → string → world → result unit * world.

Definition run (self : graph) (w : world) : result unit * world :=
  match read_json self w with
  | (Raise e, w) => (Raise e, w)
  | (Ok _, w) =>
      match parse_jsons self w with
      | Raise e => (Raise e, w)
      | Ok graph =>
          match pipe_vl2vg graph with
          | Raise e => (Raise e, w)
          | Ok json => write_to_file self json w
          end
      end
  end.

End Run.

(** ** Vocabulary of the statements *)

(** A row satisfies a list of conditions: every one holds by [==]. *)
Definition row_matches (conds : list (string * value)) (r : gmap string value)
  : Prop :=
  Forall (λ kv, py_eq (pandas.cell r kv.1) kv.2 = true) conds.

#[global] Instance row_matches_dec conds r : Decision (row_matches conds r).
Proof. unfold row_matches. apply _. Defined.


(** ** Scenarios *)

(** Doubles of the scenarios, as mantissa and exponent. *)
Definition f_12_4 : spec_float := S754_finite false 6980579422424269 (-49).
Definition f_3_1 : spec_float := S754_finite false 6980579422424269 (-51).
Definition f_12_6 : spec_float := S754_finite false 7093169413108531 (-49).
Definition f_12_5 : spec_float := S754_finite false 7036874417766400 (-49).
Definition f_13_5 : spec_float := S754_finite false 7599824371187712 (-49).

(** The two records of the end-to-end scenario. *)
Definition road : gmap string value :=
  {[ "algorithm" := VStr "BFS"; "undirected" := VBool true;
     "mark_predecessors" := VBool true; "dataset" := VStr "road";
     "m_teps" := VFloat f_12_4 ]}.

Definition soc : gmap string value :=
  {[ "algorithm" := VStr "BFS"; "undirected" := VBool false;
     "mark_predecessors" := VBool true; "dataset" := VStr "soc";
     "m_teps" := VFloat f_3_1 ]}.

Definition bfs_undirected : gmap string value :=
  {[ "algorithm" := VStr "BFS"; "undirected" := VBool true;
     "mark_predecessors" := VBool true ]}.

Definition dataset_vs_m_teps : gmap string string :=
  {[ "x" := "dataset"; "y" := "m_teps" ]}.

Definition road_soc : pandas.frame := pandas.DataFrame [road; soc].

(** [road_soc] with the second row masked out. *)
Definition road_only : pandas.frame :=
  pandas.loc road_soc [(VInt 0, true); (VInt 1, false)].

(** A table where one record lacks a field that another one has, and a
    table where no record has it. *)
Definition with_and_without_b : list (gmap string value) :=
  [ {[ "a" := VInt 1; "b" := VInt 2 ]}; {[ "a" := VInt 1 ]} ].

Definition without_b : list (gmap string value) :=
  [ {[ "a" := VInt 1 ]} ].

Definition b_is_2 : gmap string value := {[ "b" := VInt 2 ]}.


(** A disk with the two records, an output of an earlier run, and the
    template of the bar chart; no list has been loaded yet. *)
Definition doc (r : gmap string value) : json := JDict (JScalar <$> r).

Definition bar_template : json :=
  JDict {[ "mark" := JScalar (VStr "bar");
           "data" := JDict {[ "url" := JScalar (VStr "data.json") ]};
           "encoding" :=
             JDict {[ "x" := JDict {[ "axis" :=
                                        JDict {[ "grid" := JScalar (VBool false) ]} ]};
                      "y" := JDict ∅ ]} ]}.

Definition web : gmap string value :=
  {[ "algorithm" := VStr "SSSP"; "undirected" := VBool true;
     "mark_predecessors" := VBool true; "dataset" := VStr "web";
     "m_teps" := VFloat f_3_1 ]}.

Definition disk : world :=
  {| dirs := {[ "in/" := ["BFS_road.json"; "_BFS_out.json"; "BFS_soc.json";
                          "SSSP_web.json"] ]};
     files := {[ "in/BFS_road.json" := Document (doc road);
                 "in/BFS_soc.json" := Document (doc soc);
                 "in/SSSP_web.json" := Document (doc web);
                 "in/_BFS_out.json" := Malformed;
                 "config/bar_config.json" := Document bar_template ]};
     heap := {[ 0%nat := [] ]};
     class_input_jsons := 0;
     instance_input_jsons := ∅ |}.

Definition gunrock_bfs : labels :=
  {| l_engine_name := "g"; l_algorithm_name := "BFS";
     l_x_axis := "Datasets"; l_y_axis := "MTEPS"; l_file_suffix := "0" |}.

Definition bar1 : graph :=
  init VegaGraphBar 1 "output/" "in/" "config" gunrock_bfs
       bfs_undirected dataset_vs_m_teps.

Definition loaded : world := (read_json bar1 disk).2.

(** The specification [bar1] assembles from [loaded]. *)
Definition assembled : json :=
  JDict {[ "mark" := JScalar (VStr "bar");
           "data" :=
             JDict {[ "values" :=
                        JList [ doc {[ "dataset" := VStr "road";
                                       "m_teps" := VFloat f_12_4 ]} ] ]};
           "encoding" :=
             JDict {[ "x" := JDict {[ "axis" := title "Datasets";
                                      "field" := JScalar (VStr "dataset");
                                      "type" := JScalar (VStr "ordinal") ]};
                      "y" := JDict {[ "axis" := title "MTEPS";
                                      "field" := JScalar (VStr "m_teps");
                                      "type" := JScalar (VStr "quantitative") ]} ]} ]}.




(** A second object, for another algorithm, and one of a class that has no
    template on the disk. *)
Definition gunrock_sssp : labels :=
  {| l_engine_name := "g"; l_algorithm_name := "SSSP";
     l_x_axis := "Datasets"; l_y_axis := "MTEPS"; l_file_suffix := "0" |}.

Definition sssp1 : graph :=
  init VegaGraphBar 4 "output/" "in/" "config" gunrock_sssp
       {[ "algorithm" := VStr "SSSP" ]} dataset_vs_m_teps.

Definition scatter1 : graph :=
  init VegaGraphScatter 3 "output/" "in/" "config" gunrock_bfs
       bfs_undirected dataset_vs_m_teps.

(** A compiler that is not installed: the shell exits with 127 and writes
    nothing. *)
Definition vl2vg_not_found : string → process :=
  λ _, {| returncode := 127; stdout := "" |}.

Definition dumps_stub : json → string := λ _, "{}".

(** A writer that puts what it is given under the output path. *)
Definition write_stub (self : graph) (content : string) (w : world)
  : result unit * world :=
  (Ok (),
   {| dirs := dirs w;
      files := <[ output_path self := Document (JScalar (VStr content)) ]> (files w);
      heap := heap w;
      class_input_jsons := class_input_jsons w;
      instance_input_jsons := instance_input_jsons w |}).

(** The stages of [parse_jsons] that come before [read_config]. *)
Definition before_config (self : graph) (w : world) : result pandas.frame :=
  let pandas_df := base_parse_jsons self w in
  df_restricted ← restrict (conditions_dict self) pandas_df;
  match class_of self with
  | VegaGraphHeatmap => heatmap_columns df_restricted
  | _ => project_axes (axes_vars self) df_restricted
  end.

(** Three records for a heatmap, with [m_teps] 12.6, 12.5 and 13.5. *)
Definition heat_record (dataset : string) (m_teps : spec_float)
  : gmap string value :=
  {[ "algorithm" := VStr "BFS"; "dataset" := VStr dataset;
     "m_teps" := VFloat m_teps; "alpha" := VInt 1; "beta" := VInt 2 ]}.

Definition heat_disk : world :=
  {| dirs := {[ "in/" := ["BFS_1.json"; "BFS_2.json"; "BFS_3.json"] ]};
     files := {[ "in/BFS_1.json" := Document (doc (heat_record "road" f_12_6));
                 "in/BFS_2.json" := Document (doc (heat_record "soc" f_12_5));
                 "in/BFS_3.json" := Document (doc (heat_record "web" f_13_5));
                 "config/heatmap_config.json" :=
                   Document (JDict {[ "mark" := JScalar (VStr "rect") ]}) ]};
     heap := {[ 0%nat := [] ]};
     class_input_jsons := 0;
     instance_input_jsons := ∅ |}.

Definition heat1 : graph :=
  init VegaGraphHeatmap 2 "output/" "in/" "config" gunrock_bfs
       {[ "algorithm" := VStr "BFS" ]} dataset_vs_m_teps.

Definition heat_loaded : world := (read_json heat1 heat_disk).2.

Definition heat_out (dataset : string) (m_teps : spec_float) (rounded : positive)
  : gmap string value :=
  {[ "dataset" := VStr dataset; "m_teps" := VFloat m_teps;
     "alpha" := VInt 1; "beta" := VInt 2;
     "m_teps_rounded" := VFloat (S754_finite false rounded 0) ]}.

Definition heat_assembled : json :=
  JDict {[ "mark" := JScalar (VStr "rect");
           "data" :=
             JDict {[ "values" :=
                        records_json [ heat_out "road" f_12_6 13;
                                       heat_out "soc" f_12_5 12;
                                       heat_out "web" f_13_5 14 ] ]} ]}.




(** A key path lies strictly inside a slot, or touches it (lies inside
    it, is it, or leads to it). *)
Definition inside (slot q : list string) : Prop :=
  slot `prefix_of` q ∧ slot ≠ q.

Definition touches (slot q : list string) : Prop :=
  slot `prefix_of` q ∨ q `prefix_of` slot.

(** The slots the merge writes. *)
Definition bar_slots (axes : gmap string string) : list (list string) :=
  ([ ["data"]; ["encoding"; "y"; "field"]; ["encoding"; "y"; "axis"] ]
   ++ ((λ kc, ["encoding"; kc.1; "type"]) <$> map_to_list axes)
   ++ [ ["encoding"; "x"; "field"]; ["encoding"; "x"; "axis"] ])%list.

Definition slots (self : graph) : list (list string) :=
  match class_of self with
  | VegaGraphHeatmap => [ ["data"] ]
  | _ => bar_slots (axes_vars self)
  end.

(** [written S j j']: [j'] comes from [j] by successive assignments, each
    to one of the slots [S]. *)
Inductive written (S : list (list string)) : json → json → Prop :=
  | written_refl j : written S j j
  | written_step j j1 j2 p k v :
      p ++ [k] ∈ S → setitem_at p k v j = Ok j1 → written S j1 j2 →
      written S j j2.


(** The fields the heatmap keeps. *)
Definition heatmap_fields : list string :=
  ["dataset"; "m_teps"; "alpha"; "beta"].

(** A disk whose second eligible file is not valid JSON. *)
Definition broken_disk : world :=
  {| dirs := {[ "in/" := ["BFS_road.json"; "BFS_bad.json"; "BFS_soc.json"] ]};
     files := {[ "in/BFS_road.json" := Document (doc road);
                 "in/BFS_bad.json" := Malformed;
                 "in/BFS_soc.json" := Document (doc soc) ]};
     heap := {[ 0%nat := [] ]};
     class_input_jsons := 0;
     instance_input_jsons := ∅ |}.

(** The same field on both axes. *)
Definition dataset_twice : gmap string string :=
  {[ "x" := "dataset"; "y" := "dataset" ]}.

(** Two records with an integer field, one of them lacking another integer
    field, a template with nothing but the two axes, and two objects that
    plot the one and the other field. *)
Definition counts_disk : world :=
  {| dirs := {[ "in/" := ["BFS_a.json"; "BFS_b.json"] ]};
     files := {[ "in/BFS_a.json" :=
                   Document (doc {[ "dataset" := VStr "road";
                                    "iterations" := VInt 3;
                                    "edges" := VInt 10 ]});
                 "in/BFS_b.json" :=
                   Document (doc {[ "dataset" := VStr "soc";
                                    "iterations" := VInt 5 ]});
                 "config/bar_config.json" :=
                   Document (JDict {[ "encoding" :=
                                        JDict {[ "x" := JDict ∅;
                                                 "y" := JDict ∅ ]} ]}) ]};
     heap := {[ 0%nat := [] ]};
     class_input_jsons := 0;
     instance_input_jsons := ∅ |}.

Definition iterations_bar : graph :=
  init VegaGraphBar 5 "output/" "in/" "config" gunrock_bfs
       ∅ {[ "x" := "dataset"; "y" := "iterations" ]}.


Definition counts_loaded : world := (read_json iterations_bar counts_disk).2.

Definition axis_json (label field type : string) : json :=
  JDict {[ "axis" := title label; "field" := JScalar (VStr field);
           "type" := JScalar (VStr type) ]}.

Definition iterations_spec : json :=
  JDict {[ "data" :=
             JDict {[ "values" :=
                        JList [ doc {[ "dataset" := VStr "road";
                                       "iterations" := VInt 3 ]};
                                doc {[ "dataset" := VStr "soc";
                                       "iterations" := VInt 5 ]} ] ]};
           "encoding" :=
             JDict {[ "x" := axis_json "Datasets" "dataset" "ordinal";
                      "y" := axis_json "MTEPS" "iterations" "ordinal" ]} ]}.




(** The template has a dict for each of the two axes. *)
Definition axes_are_dicts (bar : json) : Prop :=
  ∀ a, a ∈ ["x"; "y"] → ∃ m, get_path ["encoding"; a] bar = Some (JDict m).



(** The names of a listing [read_json] loads, and what the disk holds for
    them. *)
Definition eligible_names (self : graph) (fs : list string) : list string :=
  filter (λ f, eligible self f = true) fs.

Definition on_disk (self : graph) (w : world) (f : string) (j : json) : Prop :=
  files w !! (input_path self +:+ f) = Some (Document j).

(** Every instance that has an [__input_jsons] of its own has it bound to
    the list of the class. *)
Definition store_shared (w : world) : Prop :=
  ∀ i r, instance_input_jsons w !! i = Some r → r = class_input_jsons w.

(** * Lemmas *)

(** ** The result monad and loops *)

Lemma bind_Ok {A B} (r : result A) (f : A → result B) (b : B) :
  r ≫= f = Ok b → ∃ a, r = Ok a ∧ f a = Ok b.
Proof. destruct r as [a|e]; simpl; [eauto | discriminate]. Qed.

Lemma filter_all {A} (P : A → Prop) `{!∀ x, Decision (P x)} (l : list A) :
  Forall P l → filter P l = l.
Proof.
  induction 1 as [|x l Hx _ IH]; [done|].
  by rewrite filter_cons_True, IH.
Qed.

(** ** The filter *)

Section Filter.

Import pandas.

Lemma mask_filter {A} (f : A → bool) (g : A → value) (l : list A) :
  fst <$> filter (λ rm : A * (value * bool), rm.2.2 = true)
                 (zip l ((λ a, (g a, f a)) <$> l))
  = filter (λ a, f a = true) l.
Proof.
  induction l as [|a l IH]; [done|].
  cbn [fmap list_fmap zip zip_with].
  rewrite !filter_cons. cbn [snd fst].
  destruct (decide (f a = true)); cbn; by rewrite IH.
Qed.

Lemma restrict_step_Ok df k v df' :
  restrict_step df (k, v) = Ok df' →
  is_Some (dtypes df !! k)
  ∧ dtypes df' = dtypes df
  ∧ index_name df' = index_name df
  ∧ index_dtype df' = index_dtype df
  ∧ rows df' = filter (λ ir, py_eq (cell ir.2 k) v = true) (rows df).
Proof.
  unfold restrict_step, getitem. cbn [fst snd].
  destruct (dtypes df !! k) as [dt|] eqn:Hk; [|discriminate].
  cbn. intros [= <-]. cbn. split_and!; try done.
  unfold eq_scalar. cbn. rewrite <- list_fmap_compose.
  apply (mask_filter (λ ir, py_eq (cell ir.2 k) v) (λ ir, ir.1)).
Qed.

Lemma restrict_step_is_Ok df k v :
  is_Some (dtypes df !! k) → is_Ok (restrict_step df (k, v)).
Proof.
  intros [dt Hk]. unfold restrict_step, getitem. cbn [fst snd].
  rewrite Hk. cbn. by eexists.
Qed.

Lemma restrict_list_Ok conds : ∀ df df',
  for_each restrict_step df conds = Ok df' →
  (∀ kv, kv ∈ conds → is_Some (dtypes df !! kv.1))
  ∧ dtypes df' = dtypes df
  ∧ index_name df' = index_name df
  ∧ index_dtype df' = index_dtype df
  ∧ rows df' = filter (λ ir, row_matches conds ir.2) (rows df).
Proof.
  induction conds as [|[k v] conds IH]; simpl; intros df df' Hrun.
  - inversion Hrun; subst. split_and!; try done.
    + by intros ? ?%elem_of_nil.
    + symmetry. apply filter_all, Forall_forall. intros. constructor.
  - apply bind_Ok in Hrun as (df1 & Hstep & Hrun).
    apply restrict_step_Ok in Hstep as (Hk & Hd & Hn & Hi & Hr).
    apply IH in Hrun as (Hks & Hd' & Hn' & Hi' & Hr').
    split_and!; try congruence.
    + intros kv [->|Hin]%elem_of_cons; [done|].
      rewrite <- Hd. by apply Hks.
    + rewrite Hr', Hr, list_filter_filter. apply list_filter_iff.
      intros ir. unfold row_matches. rewrite Forall_cons. cbn. tauto.
Qed.

Lemma restrict_list_is_Ok conds : ∀ df,
  (∀ kv, kv ∈ conds → is_Some (dtypes df !! kv.1)) →
  is_Ok (for_each restrict_step df conds).
Proof.
  induction conds as [|[k v] conds IH]; simpl; intros df Hks.
  - by eexists.
  - destruct (restrict_step_is_Ok df k v) as [df1 Hstep].
    { apply (Hks (k, v)). by left. }
    rewrite Hstep. cbn. apply IH. intros kv Hin.
    apply restrict_step_Ok in Hstep as (_ & -> & _).
    apply Hks. by right.
Qed.

(** The loop of [parse_jsons], read on the dictionary of conditions. *)
Lemma restrict_Ok P df df' :
  restrict P df = Ok df' →
  dom P ⊆ dom (dtypes df)
  ∧ dtypes df' = dtypes df
  ∧ index_name df' = index_name df
  ∧ index_dtype df' = index_dtype df
  ∧ rows df' = filter (λ ir, row_matches (map_to_list P) ir.2) (rows df).
Proof.
  intros (Hks & Hrest)%restrict_list_Ok. split; [|done].
  intros k [v Hk]%elem_of_dom. apply elem_of_dom.
  apply (Hks (k, v)). by apply elem_of_map_to_list.
Qed.

Lemma restrict_is_Ok P df :
  dom P ⊆ dom (dtypes df) → is_Ok (restrict P df).
Proof.
  intros Hsub. apply restrict_list_is_Ok. intros [k v] Hin%elem_of_map_to_list.
  apply elem_of_dom, Hsub, elem_of_dom. by eexists.
Qed.

Lemma row_matches_lookup (P : gmap string value) r :
  row_matches (map_to_list P) r ↔
  ∀ k v, P !! k = Some v → py_eq (cell r k) v = true.
Proof.
  unfold row_matches. rewrite Forall_forall. split.
  - intros H k v Hk. by apply (H (k, v)), elem_of_map_to_list.
  - intros H [k v] Hin%elem_of_map_to_list. by apply H.
Qed.

End Filter.

(** ** The filter keeps exactly the matching rows *)



(** ** The frame of a list of records *)

Section DataFrame.

Import pandas.

Implicit Types (T : list (gmap string value)) (r : gmap string value).

Lemma column_dtypes_lookup T c :
  column_dtypes T !! c =
    if decide (c ∈ (⋃ (dom <$> T) : gset string))
    then Some (infer_dtype ((λ r, cell r c) <$> T)) else None.
Proof.
  unfold column_dtypes. rewrite map_lookup_imap, lookup_gset_to_gmap.
  destruct (decide _) as [Hin|Hout].
  - by rewrite option_guard_True.
  - by rewrite option_guard_False.
Qed.

Lemma elem_of_columns T c :
  c ∈ (⋃ (dom <$> T) : gset string) ↔ ∃ r, r ∈ T ∧ is_Some (r !! c).
Proof.
  rewrite elem_of_union_list. split.
  - intros (X & (r & -> & Hr)%list_elem_of_fmap & Hc).
    exists r. split; [done|]. by apply elem_of_dom.
  - intros (r & Hr & Hc). exists (dom r). split.
    + apply list_elem_of_fmap. eauto.
    + by apply elem_of_dom.
Qed.

Lemma dom_column_dtypes T : dom (column_dtypes T) = ⋃ (dom <$> T).
Proof.
  apply set_eq. intros c. rewrite elem_of_dom, column_dtypes_lookup.
  destruct (decide _) as [Hin|Hout]; split; intros H; done.
Qed.

Lemma DataFrame_dtypes T : dtypes (DataFrame T) = column_dtypes T.
Proof. done. Qed.

Lemma DataFrame_rows T :
  rows (DataFrame T)
  = imap (λ i r, (VInt (Z.of_nat i), row_of (column_dtypes T) r)) T.
Proof. done. Qed.

Lemma row_of_lookup dts r c :
  row_of dts r !! c = (λ dt, astype dt (cell r c)) <$> dts !! c.
Proof.
  unfold row_of. rewrite map_lookup_imap.
  by destruct (dts !! c).
Qed.


Lemma elem_of_DataFrame_rows T ir :
  ir ∈ rows (DataFrame T) ↔
  ∃ i r, T !! i = Some r
         ∧ ir = (VInt (Z.of_nat i), row_of (column_dtypes T) r).
Proof.
  rewrite DataFrame_rows, elem_of_lookup_imap. split.
  - intros (i & r & -> & Hi). eauto.
  - intros (i & r & Hi & ->). eauto.
Qed.



(** A missing field is NaN in its row, whatever the type of the column,
    and NaN equals nothing. *)
Lemma py_eq_nan v : py_eq (VFloat Float.nan) v = false.
Proof. by destruct v. Qed.

Lemma astype_nan dt : astype dt (VFloat Float.nan) = VFloat Float.nan.
Proof. by destruct dt. Qed.

Lemma cell_row_of_missing dts r c :
  r !! c = None → cell (row_of dts r) c = VFloat Float.nan.
Proof.
  intros Hc. unfold cell at 1. rewrite row_of_lookup.
  destruct (dts !! c) as [dt|]; [|done]. cbn.
  unfold cell. rewrite Hc. apply astype_nan.
Qed.

End DataFrame.

(** ** The filter and missing fields *)

Section MissingField.

Import pandas.

Lemma restrict_list_Raise conds : ∀ df e,
  for_each restrict_step df conds = Raise e →
  ∃ k v, (k, v) ∈ conds ∧ dtypes df !! k = None ∧ e = KeyError k.
Proof.
  induction conds as [|[k v] conds IH]; simpl; intros df e Hrun;
    [discriminate|].
  destruct (restrict_step df (k, v)) as [df1|e1] eqn:Hstep; cbn in Hrun.
  - apply restrict_step_Ok in Hstep as (_ & Hd & _).
    apply IH in Hrun as (k' & v' & Hin & Hk' & ->).
    exists k', v'. rewrite <- Hd. split_and!; [by right|done|done].
  - injection Hrun as ->. exists k, v. split; [by left|].
    unfold restrict_step, getitem in Hstep. cbn [fst snd] in Hstep.
    destruct (dtypes df !! k); cbn in Hstep; [discriminate|].
    by injection Hstep as <-.
Qed.

Lemma excluded_when_field_missing T P T' i r k :
  restrict P (DataFrame T) = Ok T' →
  T !! i = Some r → is_Some (P !! k) → r !! k = None →
  VInt (Z.of_nat i) ∉ (fst <$> rows T').
Proof.
  intros (_ & _ & _ & _ & Hrows)%restrict_Ok Hi [v Hk] Hmiss.
  rewrite Hrows.
  intros ([l row] & Hl & [Hm Hin]%list_elem_of_filter)%list_elem_of_fmap.
  cbn in Hl, Hm. subst l.
  apply elem_of_DataFrame_rows in Hin as (j & r' & Hj & Heq).
  injection Heq as Hij%Nat2Z.inj ->. subst j.
  rewrite Hi in Hj. injection Hj as <-.
  apply row_matches_lookup with (k:=k) (v:=v) in Hm; [|done].
  by rewrite cell_row_of_missing, py_eq_nan in Hm.
Qed.

End MissingField.

(** C7, as the code has it: a record that lacks a field named by a key of
    the conditions fails the match and is left out, and the filter does not
    raise, provided every key of the conditions is a field of at least one
    record of the table; a key that is a field of no record makes the filter
    raise [KeyError]. *)
Theorem filter_missing_field (T : list (gmap string value))
    (P : gmap string value) :
  (dom P ⊆ ⋃ (dom <$> T) →
     ∃ T', restrict P (pandas.DataFrame T) = Ok T'
       ∧ ∀ i r k, T !! i = Some r → is_Some (P !! k) → r !! k = None →
           VInt (Z.of_nat i) ∉ (fst <$> pandas.rows T'))
  ∧ (dom P ⊈ ⋃ (dom <$> T) →
     ∃ k, restrict P (pandas.DataFrame T) = Raise (KeyError k)
       ∧ is_Some (P !! k) ∧ ∀ r, r ∈ T → r !! k = None).
Proof.
  split.
  - intros Hsub.
    destruct (restrict_is_Ok P (pandas.DataFrame T)) as [T' HT'].
    { by rewrite DataFrame_dtypes, dom_column_dtypes. }
    exists T'. split; [done|]. intros i r k.
    by apply excluded_when_field_missing.
  - intros Hsub.
    destruct (restrict P (pandas.DataFrame T)) as [T'|e] eqn:Hrun.
    + apply restrict_Ok in Hrun as (Hdom & _).
      by rewrite DataFrame_dtypes, dom_column_dtypes in Hdom.
    + apply restrict_list_Raise in Hrun as (k & v & Hin & Hk & ->).
      apply elem_of_map_to_list in Hin.
      exists k. split_and!; [done|by eexists|].
      intros r Hr. destruct (r !! k) as [x|] eqn:Hrk; [|done].
      rewrite DataFrame_dtypes in Hk.
      apply not_elem_of_dom in Hk. rewrite dom_column_dtypes in Hk.
      exfalso. apply Hk, elem_of_columns. exists r. split; [done|by eexists].
Qed.

Lemma filter_missing_field_witness :
  dom b_is_2 ⊆ ⋃ (dom <$> with_and_without_b)
  ∧ ∃ T', restrict b_is_2 (pandas.DataFrame with_and_without_b) = Ok T'
      ∧ ∀ i r k, with_and_without_b !! i = Some r → is_Some (b_is_2 !! k) →
          r !! k = None → VInt (Z.of_nat i) ∉ (fst <$> pandas.rows T').
Proof.
  assert (dom b_is_2 ⊆ ⋃ (dom <$> with_and_without_b)) as Hsub.
  { apply (bool_decide_unpack _). vm_compute. exact I. }
  split; [exact Hsub|].
  exact (proj1 (filter_missing_field with_and_without_b b_is_2) Hsub).
Defined.

(** C7 as it is worded fails: the only record lacks the field [b] the
    conditions name, and the filter raises. *)
Lemma filter_raises_on_unknown_field :
  (∃ r k, r ∈ without_b ∧ is_Some (b_is_2 !! k) ∧ r !! k = None)
  ∧ restrict b_is_2 (pandas.DataFrame without_b) = Raise (KeyError "b").
Proof.
  split.
  - exists {[ "a" := VInt 1 ]}, "b". split_and!.
    + by left.
    + by eexists.
    + done.
  - vm_compute. reflexivity.
Qed.

(** ** The projection on the axes *)

Section Projection.

Import pandas.


Lemma cell_delete_ne r c c' : c ≠ c' → cell (delete c r) c' = cell r c'.
Proof. intros. unfold cell. by rewrite lookup_delete_ne. Qed.

Lemma projected_labels df cx cy :
  fst <$> ((λ iv : value * value,
              (iv.1, ({[cy := iv.2]} : gmap string value))) <$>
           ((λ ir : value * gmap string value, (ir.1, cell ir.2 cy)) <$>
            ((λ ir : value * gmap string value,
                (cell ir.2 cx, delete cx ir.2)) <$> rows df)))
  = (λ ir, cell ir.2 cx) <$> rows df.
Proof. rewrite <- !list_fmap_compose. by apply list_fmap_ext. Qed.

(** What the four calls of the projection amount to. *)
Lemma project_axes_Ok axes df out cx cy :
  axes !! "x" = Some cx → axes !! "y" = Some cy →
  project_axes axes df = Ok out →
  ∃ dtx dty,
    dtypes df !! cx = Some dtx ∧ dtypes df !! cy = Some dty ∧ cx ≠ cy
    ∧ let dt := if decide (dtx = object_)
                then infer_dtype ((λ ir, cell ir.2 cx) <$> rows df)
                else dtx in
      dtypes out = <[ cx := dt ]> {[ cy := dty ]}
      ∧ to_dict_records out
        = (λ ir, <[ cx := astype dt (cell ir.2 cx) ]> {[ cy := cell ir.2 cy ]})
            <$> rows df.
Proof.
  intros Hx Hy. unfold project_axes, dict_getitem. rewrite Hx, Hy. cbn.
  unfold set_index. destruct (dtypes df !! cx) as [dtx|] eqn:Hcx;
    [|discriminate]. cbn.
  unfold getitem. cbn [dtypes].
  destruct (decide (cx = cy)) as [->|Hne].
  { rewrite lookup_delete_eq. discriminate. }
  rewrite lookup_delete_ne by done.
  destruct (dtypes df !! cy) as [dty|] eqn:Hcy; [|discriminate]. cbn.
  unfold reset_index, DataFrame_of_series.
  cbn -[singletonM insert lookup].
  rewrite lookup_singleton_ne by done.
  rewrite projected_labels.
  intros [= <-]. exists dtx, dty. split_and!; try done.
  unfold to_dict_records. cbn -[singletonM insert lookup].
  rewrite !imap_fmap.
  rewrite fmap_imap. etrans; [|apply imap_const]. apply imap_ext.
  intros i ir _. cbn -[singletonM insert lookup].
  by rewrite cell_delete_ne.
Qed.

Lemma project_axes_is_Ok axes df cx cy :
  axes !! "x" = Some cx → axes !! "y" = Some cy →
  is_Some (dtypes df !! cx) → is_Some (dtypes df !! cy) → cx ≠ cy →
  is_Ok (project_axes axes df).
Proof.
  intros Hx Hy [dtx Hcx] [dty Hcy] Hne.
  unfold project_axes, dict_getitem. rewrite Hx, Hy. cbn.
  unfold set_index. rewrite Hcx. cbn. unfold getitem. cbn [dtypes].
  rewrite lookup_delete_ne, Hcy by done. cbn.
  unfold reset_index, DataFrame_of_series.
  cbn -[singletonM insert lookup].
  rewrite lookup_singleton_ne by done. by eexists.
Qed.

End Projection.




(** ** Updates of a nested dict *)

Section Paths.

Implicit Types (p q : list string) (j v : json).

Lemma py_setitem_Ok j k v j' :
  py_setitem j k v = Ok j' → ∃ m, j = JDict m ∧ j' = JDict (<[ k := v ]> m).
Proof. destruct j; cbn; try discriminate. intros [= <-]. eauto. Qed.

Lemma py_getitem_Ok j k c :
  py_getitem j k = Ok c → ∃ m, j = JDict m ∧ m !! k = Some c.
Proof.
  destruct j as [| | |m]; cbn; try discriminate. unfold dict_getitem.
  destruct (m !! k) eqn:Hk; [|discriminate]. intros [= <-]. eauto.
Qed.

(** The shape of a successful update. *)
Lemma setitem_at_cons_Ok k0 p k v j j' :
  setitem_at (k0 :: p) k v j = Ok j' →
  ∃ m c c', j = JDict m ∧ m !! k0 = Some c
            ∧ setitem_at p k v c = Ok c' ∧ j' = JDict (<[ k0 := c' ]> m).
Proof.
  cbn. intros (c & (m & -> & Hc)%py_getitem_Ok & Hrest)%bind_Ok.
  apply bind_Ok in Hrest as (c' & Hc' & Hset).
  cbn in Hset. injection Hset as <-. eauto 8.
Qed.

(** The slot holds the new value. *)
Lemma setitem_at_slot p k v : ∀ j j' q,
  setitem_at p k v j = Ok j' →
  get_path (p ++ k :: q) j' = get_path q v.
Proof.
  induction p as [|k0 p IH]; intros j j' q Hset.
  - apply py_setitem_Ok in Hset as (m & -> & ->). cbn.
    by rewrite lookup_insert_eq.
  - apply setitem_at_cons_Ok in Hset as (m & c & c' & -> & Hc & Hset & ->).
    cbn. rewrite lookup_insert_eq. cbn. by eapply IH.
Qed.

(** What leads to the slot is still there. *)
Lemma setitem_at_above p k v : ∀ j j' q,
  setitem_at p k v j = Ok j' →
  q `prefix_of` p ++ [k] → is_Some (get_path q j').
Proof.
  induction p as [|k0 p IH]; intros j j' q Hset Hpre.
  - apply py_setitem_Ok in Hset as (m & -> & ->).
    destruct q as [|k1 q]; [by eexists|].
    pose proof (prefix_cons_inv_1 _ _ _ _ Hpre) as ->.
    apply prefix_cons_inv_2, prefix_nil_inv in Hpre as ->.
    cbn. rewrite lookup_insert_eq. by eexists.
  - apply setitem_at_cons_Ok in Hset as (m & c & c' & -> & Hc & Hset & ->).
    destruct q as [|k1 q]; [by eexists|].
    pose proof (prefix_cons_inv_1 _ _ _ _ Hpre) as ->.
    apply prefix_cons_inv_2 in Hpre.
    cbn. rewrite lookup_insert_eq. cbn. by eapply IH.
Qed.

(** What does not touch the slot is as before. *)
Lemma setitem_at_frame p k v : ∀ j j' q,
  setitem_at p k v j = Ok j' →
  ¬ touches (p ++ [k]) q → get_path q j' = get_path q j.
Proof.
  unfold touches.
  induction p as [|k0 p IH]; intros j j' q Hset Hno.
  - apply py_setitem_Ok in Hset as (m & -> & ->).
    destruct q as [|k1 q].
    { exfalso. apply Hno. right. apply prefix_nil. }
    cbn. rewrite lookup_insert_ne; [done|].
    intros ->. apply Hno. left. apply prefix_cons, prefix_nil.
  - apply setitem_at_cons_Ok in Hset as (m & c & c' & -> & Hc & Hset & ->).
    destruct q as [|k1 q].
    { exfalso. apply Hno. right. apply prefix_nil. }
    cbn. destruct (decide (k0 = k1)) as [->|Hne].
    + rewrite lookup_insert_eq, Hc. cbn. eapply IH; [done|].
      intros [Hp|Hp]; apply Hno; [left|right]; by apply prefix_cons.
    + by rewrite lookup_insert_ne.
Qed.

(** A key path that does not lie strictly inside the slot is kept. *)
Lemma setitem_at_keeps p k v j j' q :
  setitem_at p k v j = Ok j' →
  ¬ inside (p ++ [k]) q →
  is_Some (get_path q j) → is_Some (get_path q j').
Proof.
  intros Hset Hno Hq.
  destruct (decide (q `prefix_of` p ++ [k])) as [Hpre|Hnpre].
  { by eapply setitem_at_above. }
  destruct (decide (p ++ [k] `prefix_of` q)) as [Hpre|Hnpre'].
  { exfalso. apply Hno. split; [done|]. intros <-. by apply Hnpre. }
  erewrite setitem_at_frame; [done|done|].
  unfold touches. tauto.
Qed.

Lemma py_setitem_setitem_at j k v : py_setitem j k v = setitem_at [] k v j.
Proof. done. Qed.

End Paths.

(** ** The merge into the template *)

Section Merge.

Lemma written_one S j j' p k v :
  p ++ [k] ∈ S → setitem_at p k v j = Ok j' → written S j j'.
Proof. intros. eapply written_step; [done|done|constructor]. Qed.

Lemma written_trans S j1 j2 j3 :
  written S j1 j2 → written S j2 j3 → written S j1 j3.
Proof.
  induction 1 as [|? ? ? ? ? ? Hin Hset _ IH]; [done|].
  intros H3. eapply written_step; [done|done|by apply IH].
Qed.

Lemma written_keeps S j j' q :
  written S j j' →
  (∀ s, s ∈ S → ¬ inside s q) →
  is_Some (get_path q j) → is_Some (get_path q j').
Proof.
  induction 1 as [|? ? ? ? ? ? Hin Hset _ IH]; [done|].
  intros Hno Hq. apply IH; [done|].
  eapply setitem_at_keeps; [done| |done]. by apply Hno.
Qed.

Lemma written_frame S j j' q :
  written S j j' →
  (∀ s, s ∈ S → ¬ touches s q) →
  get_path q j' = get_path q j.
Proof.
  induction 1 as [|? ? ? ? ? ? Hin Hset _ IH]; [done|].
  intros Hno. rewrite IH by done.
  eapply setitem_at_frame; [done|]. by apply Hno.
Qed.

Lemma set_axis_types_written S df l : ∀ bar bar',
  (∀ kc, kc ∈ l → ["encoding"; kc.1; "type"] ∈ S) →
  for_each (set_axis_type df) bar l = Ok bar' →
  written S bar bar'.
Proof.
  induction l as [|kc l IH]; simpl; intros bar bar' HS Hrun.
  - injection Hrun as <-. constructor.
  - apply bind_Ok in Hrun as (bar1 & Hstep & Hrun).
    unfold set_axis_type in Hstep.
    apply bind_Ok in Hstep as (t & _ & Hset).
    eapply written_step with (p := ["encoding"; kc.1]); [|exact Hset|].
    + apply HS. by left.
    + apply IH; [|done]. intros ? ?. apply HS. by right.
Qed.

Lemma bar_slots_head axes s :
  s ∈ [ ["data"]; ["encoding"; "y"; "field"]; ["encoding"; "y"; "axis"] ] →
  s ∈ bar_slots axes.
Proof. intros. unfold bar_slots. apply elem_of_app. by left. Qed.

Lemma bar_slots_types axes kc :
  kc ∈ map_to_list axes → ["encoding"; kc.1; "type"] ∈ bar_slots axes.
Proof.
  intros. unfold bar_slots. apply elem_of_app. right.
  apply elem_of_app. left.
  by apply (list_elem_of_fmap_2 (λ kc, ["encoding"; kc.1; "type"])).
Qed.

Lemma bar_slots_tail axes s :
  s ∈ [ ["encoding"; "x"; "field"]; ["encoding"; "x"; "axis"] ] →
  s ∈ bar_slots axes.
Proof.
  intros. unfold bar_slots. apply elem_of_app. right.
  apply elem_of_app. by right.
Qed.

Lemma complete_bar_written axes xl yl df tmpl spec :
  complete_bar axes xl yl df tmpl = Ok spec →
  written (bar_slots axes) tmpl spec.
Proof.
  unfold complete_bar. intros Hrun.
  apply bind_Ok in Hrun as (b1 & H1 & Hrun).
  apply bind_Ok in Hrun as (y & _ & Hrun).
  apply bind_Ok in Hrun as (b2 & H2 & Hrun).
  apply bind_Ok in Hrun as (b3 & H3 & Hrun).
  apply bind_Ok in Hrun as (b4 & H4 & Hrun).
  apply bind_Ok in Hrun as (x & _ & Hrun).
  apply bind_Ok in Hrun as (b5 & H5 & H6).
  rewrite py_setitem_setitem_at in H1.
  eapply written_trans; [eapply written_one; [|exact H1]|].
  { apply bar_slots_head. set_solver. }
  eapply written_trans;
    [eapply (written_one _ _ _ ["encoding"; "y"]); [|exact H2]|].
  { apply bar_slots_head. set_solver. }
  eapply written_trans;
    [eapply (written_one _ _ _ ["encoding"; "y"]); [|exact H3]|].
  { apply bar_slots_head. set_solver. }
  eapply written_trans; [eapply set_axis_types_written; [|exact H4]|].
  { apply bar_slots_types. }
  eapply written_trans;
    [eapply (written_one _ _ _ ["encoding"; "x"]); [|exact H5]|].
  { apply bar_slots_tail. set_solver. }
  eapply (written_one _ _ _ ["encoding"; "x"]); [|exact H6].
  apply bar_slots_tail. set_solver.
Qed.

Lemma parse_jsons_written self w spec :
  parse_jsons self w = Ok spec →
  ∃ tmpl, read_config self w = Ok tmpl ∧ written (slots self) tmpl spec.
Proof.
  unfold parse_jsons, slots.
  assert (parse_jsons_barbase self w = Ok spec →
          ∃ tmpl, read_config self w = Ok tmpl
                  ∧ written (bar_slots (axes_vars self)) tmpl spec) as Hbar.
  { unfold parse_jsons_barbase. intros Hrun.
    apply bind_Ok in Hrun as (df1 & _ & Hrun).
    apply bind_Ok in Hrun as (df2 & _ & Hrun).
    apply bind_Ok in Hrun as (tmpl & Hcfg & Hrun).
    exists tmpl. split; [done|]. by eapply complete_bar_written. }
  destruct (class_of self); try exact Hbar.
  unfold parse_jsons_heatmap. intros Hrun.
  apply bind_Ok in Hrun as (df1 & _ & Hrun).
  apply bind_Ok in Hrun as (df2 & _ & Hrun).
  apply bind_Ok in Hrun as (tmpl & Hcfg & Hrun).
  exists tmpl. split; [done|].
  rewrite py_setitem_setitem_at in Hrun.
  eapply written_one; [|exact Hrun]. set_solver.
Qed.

End Merge.

(** C4 as the code has it: a key path of the template that does not lie
    strictly inside one of the slots the merge assigns ([data], and under
    [encoding] the [field], [axis] and [type] of the axes) is still a key
    path of the assembled specification, and one that touches no slot has
    the value it had.  What the template held inside a slot goes with the
    slot, which is assigned as a whole. *)
Theorem template_keys_kept (self : graph) (w : world) (spec : json)
    (q : list string) :
  parse_jsons self w = Ok spec →
  ∃ tmpl, read_config self w = Ok tmpl
    ∧ ((∀ s, s ∈ slots self → ¬ inside s q) →
       is_Some (get_path q tmpl) → is_Some (get_path q spec))
    ∧ ((∀ s, s ∈ slots self → ¬ touches s q) →
       get_path q spec = get_path q tmpl).
Proof.
  intros (tmpl & Hcfg & Hw)%parse_jsons_written.
  exists tmpl. split_and!; [done| |].
  - intros. by eapply written_keeps.
  - intros. by eapply written_frame.
Qed.

Lemma template_keys_kept_witness :
  parse_jsons bar1 loaded = Ok assembled
  ∧ ∃ tmpl, read_config bar1 loaded = Ok tmpl
    ∧ ((∀ s, s ∈ slots bar1 → ¬ inside s ["mark"]) →
       is_Some (get_path ["mark"] tmpl) → is_Some (get_path ["mark"] assembled))
    ∧ ((∀ s, s ∈ slots bar1 → ¬ touches s ["mark"]) →
       get_path ["mark"] assembled = get_path ["mark"] tmpl).
Proof.
  split; [vm_compute; reflexivity|].
  apply (template_keys_kept bar1 loaded assembled ["mark"]).
  vm_compute; reflexivity.
Defined.

(** C4 as it is worded fails: the template's [data.url] and the [grid]
    under the axis of [x] are keys of the template and not of the
    assembled specification. *)
Lemma merge_drops_keys_inside_slots :
  read_config bar1 loaded = Ok bar_template
  ∧ parse_jsons bar1 loaded = Ok assembled
  ∧ is_Some (get_path ["data"; "url"] bar_template)
  ∧ get_path ["data"; "url"] assembled = None
  ∧ is_Some (get_path ["encoding"; "x"; "axis"; "grid"] bar_template)
  ∧ get_path ["encoding"; "x"; "axis"; "grid"] assembled = None.
Proof.
  split_and!; try (vm_compute; reflexivity); vm_compute; by eexists.
Qed.

(** ** The types of the axes *)

Section AxisTypes.

Import pandas.






Lemma axis_type_Ok df c t :
  axis_type df c = Ok t →
  ∃ dt, dtypes df !! c = Some dt
        ∧ t = if decide (dt = float64) then "quantitative" else "ordinal".
Proof.
  unfold axis_type, getitem.
  destruct (dtypes df !! c) as [dt|]; [|discriminate]. cbn.
  intros [= <-]. eauto.
Qed.

Lemma equal_length_not_touching (s q : list string) :
  length s = length q → s ≠ q → ¬ touches s q.
Proof.
  intros Hlen Hne [Hp|Hp].
  - apply Hne. apply prefix_length_eq; [done|lia].
  - apply Hne. symmetry. apply prefix_length_eq; [done|lia].
Qed.

(** After the loop over the axes, each of them has the type its column
    gave it. *)
Lemma set_axis_types_result df l : ∀ bar bar',
  NoDup l.*1 →
  for_each (set_axis_type df) bar l = Ok bar' →
  ∀ k c, (k, c) ∈ l →
    ∃ t, axis_type df c = Ok t
         ∧ get_path ["encoding"; k; "type"] bar' = Some (JScalar (VStr t)).
Proof.
  induction l as [|[k0 c0] l IH]; cbn [for_each];
    intros bar bar' Hnd Hrun k c Hin.
  { by apply elem_of_nil in Hin. }
  apply NoDup_cons in Hnd as [Hk0 Hnd].
  apply bind_Ok in Hrun as (bar1 & Hstep & Hrun).
  apply elem_of_cons in Hin as [[= -> ->]|Hin].
  - unfold set_axis_type in Hstep. cbn [fst snd] in Hstep.
    apply bind_Ok in Hstep as (t & Ht & Hset).
    exists t. split; [done|].
    erewrite (written_frame ((λ kc, ["encoding"; kc.1; "type"]) <$> l)).
    + by apply (setitem_at_slot ["encoding"; k0] "type" _ _ _ []) in Hset.
    + eapply set_axis_types_written; [|exact Hrun].
      intros kc Hkc.
      by apply (list_elem_of_fmap_2 (λ kc, ["encoding"; kc.1; "type"])).
    + intros s ([k1 c1] & -> & Hkc)%list_elem_of_fmap.
      apply equal_length_not_touching; [done|]. cbn. intros [= ->].
      apply Hk0. by apply (list_elem_of_fmap_2 fst _ (k0, c1)).
  - by eapply IH.
Qed.

(** The types survive the rest of the merge. *)
Lemma complete_bar_types axes xl yl df tmpl spec k c :
  complete_bar axes xl yl df tmpl = Ok spec →
  axes !! k = Some c →
  ∃ t, axis_type df c = Ok t
       ∧ get_path ["encoding"; k; "type"] spec = Some (JScalar (VStr t)).
Proof.
  unfold complete_bar. intros Hrun Hk.
  apply bind_Ok in Hrun as (b1 & H1 & Hrun).
  apply bind_Ok in Hrun as (y & _ & Hrun).
  apply bind_Ok in Hrun as (b2 & H2 & Hrun).
  apply bind_Ok in Hrun as (b3 & H3 & Hrun).
  apply bind_Ok in Hrun as (b4 & H4 & Hrun).
  apply bind_Ok in Hrun as (x & _ & Hrun).
  apply bind_Ok in Hrun as (b5 & H5 & H6).
  destruct (set_axis_types_result _ _ _ _ (NoDup_fst_map_to_list axes)
              H4 k c) as (t & Ht & Hget).
  { by apply elem_of_map_to_list. }
  exists t. split; [done|].
  rewrite (setitem_at_frame _ _ _ _ _ _ H6),
          (setitem_at_frame _ _ _ _ _ _ H5); [done| |];
    by apply equal_length_not_touching.
Qed.

End AxisTypes.

Lemma project_axes_keys axes df out :
  project_axes axes df = Ok out →
  ∃ cx cy, axes !! "x" = Some cx ∧ axes !! "y" = Some cy.
Proof.
  unfold project_axes, dict_getitem.
  destruct (axes !! "x") as [cx|]; [|discriminate]. cbn.
  destruct (pandas.set_index df cx); [|discriminate]. cbn.
  destruct (axes !! "y") as [cy|]; [|discriminate]. eauto.
Qed.




(** ** Rounding to the nearest integer *)

Section Rint.

Local Open Scope Z_scope.


Lemma round_half_even_nonneg n d :
  0 < d → 0 <= n → 0 <= Float.round_half_even n d.
Proof.
  intros Hd Hn. unfold Float.round_half_even.
  pose proof (Z.div_pos n d Hn Hd).
  destruct (_ ?= _); [destruct (Z.even _)| |]; lia.
Qed.

(** On a tie the even neighbour is taken. *)
Lemma round_half_even_tie n d k :
  0 < d → 2 * n = (2 * k + 1) * d →
  Float.round_half_even n d = if Z.even k then k else k + 1.
Proof.
  intros Hd Htie. unfold Float.round_half_even.
  pose proof (Z.div_mod n d ltac:(lia)) as Hdiv.
  pose proof (Z.mod_pos_bound n d Hd) as Hmod.
  assert (n / d = k) as Hq.
  { destruct (Z.lt_trichotomy (n / d) k) as [Hlt|[Heq|Hgt]]; [|done|].
    - assert (d * (n / d) <= d * (k - 1)) by (apply Z.mul_le_mono_nonneg_l; lia).
      lia.
    - assert (d * (k + 1) <= d * (n / d)) by (apply Z.mul_le_mono_nonneg_l; lia).
      lia. }
  rewrite Hq in *.
  assert (2 * (n mod d) = d) as -> by lia.
  by rewrite Z.compare_refl.
Qed.

Lemma pow2_pos e : e < 0 → 0 < 2 ^ (- e).
Proof. intros. apply Z.pow_pos_nonneg; lia. Qed.

(** The integer a float with exponent 0 denotes. *)
Lemma to_Q_integer s n :
  Float.to_Q (S754_finite s n 0) = Some (inject_Z (Float.signed s n)).
Proof.
  unfold Float.to_Q, Float.to_number. cbn [Z.leb Z.compare].
  by rewrite Z.pow_0_r, Z.mul_1_r.
Qed.

(** What [rint] returns on a float with a fraction: the rounded
    magnitude with the sign. *)
Lemma rint_fraction s m e :
  e < 0 →
  Float.to_Q (Float.rint (S754_finite s m e))
  = Some (inject_Z (let r := Float.round_half_even (Z.pos m) (2 ^ (- e)) in
                    if s then - r else r)).
Proof.
  intros He. unfold Float.rint.
  destruct (Z.leb_spec 0 e) as [|_]; [lia|].
  pose proof (round_half_even_nonneg (Z.pos m) (2 ^ (- e))
                (pow2_pos e He) ltac:(lia)) as Hr.
  cbn zeta.
  destruct (Float.round_half_even (Z.pos m) (2 ^ (- e))) as [|r|r];
    [by destruct s| |lia].
  rewrite to_Q_integer. by destruct s.
Qed.


(** On a value halfway between two integers [rint] returns the even
    one. *)
Lemma rint_half_to_even f q k :
  Float.to_Q f = Some q →
  (q == inject_Z k + (1 # 2))%Q →
  Float.to_Q (Float.rint f)
  = Some (inject_Z (if Z.even k then k else k + 1)).
Proof.
  destruct f as [s|s| |s m e]; try discriminate.
  - intros [= <-]. unfold Qeq, Qplus, inject_Z. cbn. lia.
  - unfold Float.to_Q at 1, Float.to_number.
    destruct (Z.leb_spec 0 e) as [He|He]; intros [= <-].
    + unfold Qeq, Qplus, inject_Z. cbn [Qnum Qden]. lia.
    + pose proof (pow2_pos e He) as Hd. intros Htie.
      rewrite rint_fraction by done. cbn zeta. do 2 f_equal.
      unfold Qeq, Qplus, inject_Z in Htie. cbn [Qnum Qden] in Htie.
      rewrite Z2Pos.id in Htie by done.
      set (d := 2 ^ (- e)) in *.
      change (Z.pos (1 * 2)) with 2 in Htie.
      destruct s; cbn [Float.signed] in Htie.
      * rewrite (round_half_even_tie _ _ (- k - 1)) by lia.
        replace (- k - 1) with (- (k + 1)) by lia.
        rewrite Z.even_opp, Z.even_add. cbn.
        destruct (Z.even k); cbn; lia.
      * by rewrite (round_half_even_tie _ _ k) by lia.
Qed.

End Rint.

(** ** The heatmap *)

Section Heatmap.

Import pandas.

Lemma zip_with_fmap_same {A B C D} (f : B → C → D) (g : A → B) (h : A → C)
    (l : list A) :
  zip_with f (g <$> l) (h <$> l) = (λ a, f (g a) (h a)) <$> l.
Proof. induction l as [|a l IH]; [done|]. cbn. by rewrite IH. Qed.

Lemma getitem_list_Ok df keys df1 :
  getitem_list df keys = Ok df1 →
  (∀ k, k ∈ keys → is_Some (dtypes df !! k))
  ∧ dtypes df1 = filter (λ kd, kd.1 ∈ keys) (dtypes df)
  ∧ rows df1 = (λ ir, (ir.1, filter (λ kv, kv.1 ∈ keys) ir.2)) <$> rows df.
Proof.
  unfold getitem_list.
  destruct (filter _ keys) as [|k0 ?] eqn:Hf; [|discriminate].
  intros [= <-]. split; [|done].
  intros k Hk. destruct (dtypes df !! k) eqn:Hd; [by eexists|].
  by destruct (filter_nil_not_elem_of _ _ k Hf Hd).
Qed.

Lemma lookup_filter_keys {A} (keys : list string) (m : gmap string A) k :
  k ∈ keys → filter (λ kv, kv.1 ∈ keys) m !! k = m !! k.
Proof.
  intros Hk. apply option_eq. intros a.
  rewrite map_lookup_filter_Some. cbn. tauto.
Qed.

Lemma numpy_rint_Ok s s' :
  numpy.rint s = Ok s' →
  items s' = (λ iv, (iv.1, numpy.rint_value iv.2)) <$> items s.
Proof.
  unfold numpy.rint. by destruct (dtype_of s); intros [= <-].
Qed.

(** The records of the heatmap: the four fields of every row and the
    rounded [m_teps]. *)
Lemma heatmap_columns_Ok df out :
  heatmap_columns df = Ok out →
  (∀ k, k ∈ heatmap_fields → is_Some (dtypes df !! k))
  ∧ to_dict_records out
    = (λ ir, <[ "m_teps_rounded" := numpy.rint_value (cell ir.2 "m_teps") ]>
               (filter (λ kv, kv.1 ∈ heatmap_fields) ir.2))
        <$> rows df.
Proof.
  unfold heatmap_columns. intros Hrun.
  apply bind_Ok in Hrun as (df1 & (Hkeys & Hd1 & Hr1)%getitem_list_Ok & Hrun).
  apply bind_Ok in Hrun as (m & Hm & Hrun).
  apply bind_Ok in Hrun as (rounded & Hrounded%numpy_rint_Ok & [= <-]).
  split; [done|].
  unfold getitem in Hm. destruct (dtypes df1 !! "m_teps"); [|discriminate].
  injection Hm as <-. cbn in Hrounded.
  unfold to_dict_records, assign. cbn [rows].
  rewrite Hrounded, Hr1, <- !list_fmap_compose, zip_with_fmap_same.
  rewrite <- list_fmap_compose. apply list_fmap_ext.
  intros i ir _. cbn -[insert filter]. f_equal. f_equal.
  unfold cell. rewrite lookup_filter_keys; [done|].
  unfold heatmap_fields. set_solver.
Qed.


(** What the heatmap class puts under [data]. *)
Lemma parse_jsons_heatmap_Ok self w spec :
  parse_jsons_heatmap self w = Ok spec →
  ∃ filtered out,
    restrict (conditions_dict self) (base_parse_jsons self w) = Ok filtered
    ∧ heatmap_columns filtered = Ok out
    ∧ get_path ["data"; "values"] spec
      = Some (records_json (to_dict_records out)).
Proof.
  unfold parse_jsons_heatmap. intros Hrun.
  apply bind_Ok in Hrun as (filtered & Hres & Hrun).
  apply bind_Ok in Hrun as (out & Hcols & Hrun).
  apply bind_Ok in Hrun as (tmpl & _ & Hset).
  exists filtered, out. split_and!; [done|done|].
  rewrite py_setitem_setitem_at in Hset.
  apply (setitem_at_slot [] "data" _ _ _ ["values"]) in Hset.
  cbn [app] in Hset. rewrite Hset. unfold data_values. cbn.
  by rewrite lookup_singleton_eq.
Qed.

End Heatmap.




(** The scenario of the specification: 12.6 is rounded to 13. *)
Example rint_12_6 : Float.rint f_12_6 = S754_finite false 13 0.
Proof. reflexivity. Qed.

(** C10: in the records of the heatmap, an [m_teps] halfway between two
    integers has the even one of them as [m_teps_rounded]; 12.5 gives 12 and
    13.5 gives 14. *)
Theorem heatmap_rounds_half_to_even (self : graph) (w : world) (spec : json) :
  class_of self = VegaGraphHeatmap →
  parse_jsons self w = Ok spec →
  (∃ filtered out,
     restrict (conditions_dict self) (base_parse_jsons self w) = Ok filtered
     ∧ get_path ["data"; "values"] spec = Some (records_json out)
     ∧ Forall2 (λ o ir,
           ∀ f q k, ir.2 !! "m_teps" = Some (VFloat f) →
             Float.to_Q f = Some q →
             (q == inject_Z k + (1 # 2))%Q →
             o !! "m_teps_rounded" = Some (VFloat (Float.rint f))
             ∧ Float.to_Q (Float.rint f)
               = Some (inject_Z (if Z.even k then k else (k + 1)%Z)))
         out (pandas.rows filtered))
  ∧ Float.rint f_12_5 = S754_finite false 12 0
  ∧ Float.rint f_13_5 = S754_finite false 14 0.
Proof.
  intros Hcls Hrun. split; [|by split].
  unfold parse_jsons in Hrun. rewrite Hcls in Hrun.
  apply parse_jsons_heatmap_Ok in Hrun as (filtered & out & Hres & Hcols & Hget).
  apply heatmap_columns_Ok in Hcols as (Hkeys & Hout).
  exists filtered, (pandas.to_dict_records out).
  split_and!; [done|done|].
  rewrite Hout. apply Forall2_fmap_l, Forall_Forall2_diag, Forall_forall.
  intros ir Hin f q k Hf Hq Htie. cbn -[insert filter]. split.
  - rewrite lookup_insert_eq. unfold pandas.cell. by rewrite Hf.
  - by apply (rint_half_to_even f q k).
Qed.

Lemma heatmap_rounds_half_to_even_witness :
  class_of heat1 = VegaGraphHeatmap
  ∧ parse_jsons heat1 heat_loaded = Ok heat_assembled
  ∧ (∃ filtered out,
       restrict (conditions_dict heat1) (base_parse_jsons heat1 heat_loaded)
       = Ok filtered
       ∧ get_path ["data"; "values"] heat_assembled = Some (records_json out)
       ∧ Forall2 (λ o ir,
             ∀ f q k, ir.2 !! "m_teps" = Some (VFloat f) →
               Float.to_Q f = Some q →
               (q == inject_Z k + (1 # 2))%Q →
               o !! "m_teps_rounded" = Some (VFloat (Float.rint f))
               ∧ Float.to_Q (Float.rint f)
                 = Some (inject_Z (if Z.even k then k else (k + 1)%Z)))
           out (pandas.rows filtered))
  ∧ Float.rint f_12_5 = S754_finite false 12 0
  ∧ Float.rint f_13_5 = S754_finite false 14 0.
Proof.
  split_and!; [reflexivity|vm_compute; reflexivity|..];
    apply (heatmap_rounds_half_to_even heat1 heat_loaded heat_assembled);
    (reflexivity || (vm_compute; reflexivity)).
Defined.

(** ** The loader and the run *)

Section Run.

Lemma iadd_input_jsons_files self l w :
  files (iadd_input_jsons self l w) = files w
  ∧ dirs (iadd_input_jsons self l w) = dirs w.
Proof. done. Qed.

Lemma read_json_loop_files self fs : ∀ w,
  files (read_json_loop self fs w).2 = files w
  ∧ dirs (read_json_loop self fs w).2 = dirs w.
Proof.
  induction fs as [|f fs IH]; intros w; cbn [read_json_loop]; [done|].
  destruct (eligible self f); [|apply IH].
  destruct (json_load w _); [|done].
  destruct (IH (iadd_input_jsons self [a] w)) as [-> ->]. done.
Qed.

(** The loader only reads the disk. *)
Lemma read_json_files self w :
  files (read_json self w).2 = files w ∧ dirs (read_json self w).2 = dirs w.
Proof.
  unfold read_json. destruct (listdir w _); [|done].
  apply read_json_loop_files.
Qed.

Lemma read_config_missing self w :
  files w !! config_path self = None →
  read_config self w = Raise (IOError (config_path self)).
Proof. intros H. unfold read_config, json_load. by rewrite H. Qed.

(** Without the template, [parse_jsons] raises: what an earlier stage
    raised, or else what [read_config] raises. *)
Lemma parse_jsons_missing_config self w :
  files w !! config_path self = None →
  match before_config self w with
  | Ok _ => parse_jsons self w = Raise (IOError (config_path self))
  | Raise e => parse_jsons self w = Raise e
  end.
Proof.
  intros Hcfg%read_config_missing.
  unfold before_config, parse_jsons, parse_jsons_heatmap, parse_jsons_barbase.
  destruct (restrict _ _) as [df|e]; cbn; [|by destruct (class_of self)].
  destruct (class_of self); cbn.
  1-3: destruct (project_axes _ _); cbn; [by rewrite Hcfg|done].
  destruct (heatmap_columns _); cbn; [by rewrite Hcfg|done].
Qed.

End Run.

(** C8: when the disk has no file at the path of the template of the
    chart type, [read_config] raises the [IOError] of [open] (the
    specification's ConfigNotFoundError), [parse_jsons] raises (that error,
    unless an earlier stage has raised its own), and [run] ends with an
    exception before the compiler and the writer are called: no file of the
    disk is written. *)
Theorem missing_config_aborts (dumps : json → string) (vl2vg : string → process)
    (write_to_file : graph → string → world → result unit * world)
    (self : graph) (w : world) :
  files w !! config_path self = None →
  read_config self w = Raise (IOError (config_path self))
  ∧ match before_config self w with
    | Ok _ => parse_jsons self w = Raise (IOError (config_path self))
    | Raise e => parse_jsons self w = Raise e
    end
  ∧ ∃ e, (run dumps vl2vg write_to_file self w).1 = Raise e
         ∧ files (run dumps vl2vg write_to_file self w).2 = files w.
Proof.
  intros Hcfg. split_and!.
  - by apply read_config_missing.
  - by apply parse_jsons_missing_config.
  - unfold run. pose proof (read_json_files self w) as [Hfiles _].
    destruct (read_json self w) as [[[]|e] w1]; cbn in Hfiles; [|by eexists].
    assert (files w1 !! config_path self = None) as Hcfg1 by by rewrite Hfiles.
    pose proof (parse_jsons_missing_config self w1 Hcfg1) as Hparse.
    destruct (before_config self w1); rewrite Hparse; by eexists.
Qed.

Lemma missing_config_aborts_witness :
  files disk !! config_path scatter1 = None
  ∧ read_config scatter1 disk = Raise (IOError (config_path scatter1))
  ∧ match before_config scatter1 disk with
    | Ok _ => parse_jsons scatter1 disk = Raise (IOError (config_path scatter1))
    | Raise e => parse_jsons scatter1 disk = Raise e
    end
  ∧ ∃ e, (run dumps_stub vl2vg_not_found write_stub scatter1 disk).1 = Raise e
         ∧ files (run dumps_stub vl2vg_not_found write_stub scatter1 disk).2
           = files disk.
Proof.
  split; [vm_compute; reflexivity|].
  apply (missing_config_aborts dumps_stub vl2vg_not_found write_stub
           scatter1 disk).
  vm_compute; reflexivity.
Defined.

(** With the records loaded, the missing template is what stops the run. *)
Example scatter_run_stops_at_config :
  (run dumps_stub vl2vg_not_found write_stub scatter1 disk).1
  = Raise (IOError "config/scatter_config.json").
Proof. vm_compute. reflexivity. Qed.




(** C3 fails on the code: [__input_jsons] is one list, bound to the class,
    that every [read_json] of every object extends.  Alone on a fresh store
    [sssp1] loads its one record; after [bar1] has loaded, the list of
    [sssp1] also holds the two records of [bar1], and loading [bar1] once
    more doubles them. *)
Theorem input_jsons_shared_between_objects :
  (read_json sssp1 disk).1 = Ok ()
  ∧ input_jsons sssp1 (read_json sssp1 disk).2 = [doc web]
  ∧ (read_json sssp1 loaded).1 = Ok ()
  ∧ input_jsons sssp1 (read_json sssp1 loaded).2 = [doc road; doc soc; doc web]
  ∧ input_jsons bar1 (read_json sssp1 loaded).2 = [doc road; doc soc; doc web]
  ∧ input_jsons bar1 (read_json bar1 loaded).2
    = [doc road; doc soc; doc road; doc soc].
Proof. split_and!; vm_compute; reflexivity. Qed.


(** * Further properties of the script *)

(** ** The loader *)

Section Loader.

Lemma input_jsons_iadd self l w :
  input_jsons self (iadd_input_jsons self l w) = input_jsons self w ++ l.
Proof.
  unfold input_jsons, input_jsons_ref, iadd_input_jsons. cbn.
  by rewrite lookup_insert_eq; cbn; rewrite lookup_insert_eq.
Qed.

Lemma json_load_Ok w path j :
  json_load w path = Ok j ↔ files w !! path = Some (Document j).
Proof.
  unfold json_load. destruct (files w !! path) as [[|j']|]; split;
    intros H; try discriminate; by injection H as ->.
Qed.

Lemma eligible_names_cons self f fs :
  eligible_names self (f :: fs)
  = if eligible self f then f :: eligible_names self fs
    else eligible_names self fs.
Proof.
  unfold eligible_names. rewrite filter_cons.
  destruct (eligible self f); by destruct (decide _).
Qed.

(** A run of the loop that returns has appended the documents of the
    eligible names, in the order of the listing. *)
Lemma read_json_loop_Ok self fs : ∀ w w',
  read_json_loop self fs w = (Ok (), w') →
  ∃ docs, Forall2 (on_disk self w) (eligible_names self fs) docs
          ∧ input_jsons self w' = input_jsons self w ++ docs.
Proof.
  induction fs as [|f fs IH]; intros w w' Hrun; cbn [read_json_loop] in Hrun.
  - injection Hrun as <-. exists []. split; [constructor|].
    by rewrite app_nil_r.
  - rewrite eligible_names_cons. destruct (eligible self f); [|by apply IH].
    destruct (json_load w _) as [j|e] eqn:Hj; [|discriminate].
    apply json_load_Ok in Hj.
    apply IH in Hrun as (docs & Hdocs & Hlist).
    exists (j :: docs). split.
    + constructor; [done|]. eapply Forall2_impl; [exact Hdocs|].
      intros f' j' Hf'. exact Hf'.
    + by rewrite Hlist, input_jsons_iadd, <- app_assoc.
Qed.

(** The loop goes through a stretch of names whose eligible files are
    documents, appending them. *)
Lemma read_json_loop_app self l1 : ∀ w docs rest,
  Forall2 (on_disk self w) (eligible_names self l1) docs →
  ∃ w1, read_json_loop self (l1 ++ rest) w = read_json_loop self rest w1
        ∧ input_jsons self w1 = input_jsons self w ++ docs
        ∧ files w1 = files w.
Proof.
  induction l1 as [|f l1 IH]; intros w docs rest Hdocs.
  - apply Forall2_nil_inv_l in Hdocs as ->. exists w.
    by rewrite app_nil_r.
  - rewrite eligible_names_cons in Hdocs. cbn [app read_json_loop].
    destruct (eligible self f).
    + apply Forall2_cons_inv_l in Hdocs as (j & docs' & Hj & Hdocs & ->).
      pose proof Hj as Hload%json_load_Ok. rewrite Hload.
      destruct (IH (iadd_input_jsons self [j] w) docs' rest)
        as (w1 & Hrun & Hlist & Hfiles); [done|].
      exists w1. split_and!; [done| |done].
      by rewrite Hlist, input_jsons_iadd, <- app_assoc.
    + by apply IH.
Qed.

Lemma read_json_loop_shared self fs : ∀ w,
  store_shared w → store_shared (read_json_loop self fs w).2.
Proof.
  induction fs as [|f fs IH]; intros w Hw; cbn [read_json_loop]; [done|].
  destruct (eligible self f); [|by apply IH].
  destruct (json_load w _); [|done]. apply IH.
  intros i r. unfold iadd_input_jsons, input_jsons_ref. cbn.
  destruct (decide (oid self = i)) as [<-|Hne].
  - rewrite lookup_insert_eq. intros [= <-].
    destruct (instance_input_jsons w !! oid self) eqn:Hi; cbn; [|done].
    by apply Hw in Hi.
  - rewrite lookup_insert_ne by done. apply Hw.
Qed.

Lemma input_jsons_shared self other w :
  store_shared w → input_jsons self w = input_jsons other w.
Proof.
  intros Hw. unfold input_jsons, input_jsons_ref.
  destruct (instance_input_jsons w !! oid self) eqn:H1;
    destruct (instance_input_jsons w !! oid other) eqn:H2; cbn;
    try apply Hw in H1 as ->; try apply Hw in H2 as ->; done.
Qed.

End Loader.

(** X1: a [read_json] that returns has read a listing of the input path and
    appended to the list of the object, after what the list held, the
    documents of the names of the listing that end in [.json], start with
    the algorithm name and do not start with an underscore, in the order of
    the listing; the disk is as it was. *)
Theorem read_json_appends_eligible (self : graph) (w w' : world) :
  read_json self w = (Ok (), w') →
  ∃ fs docs,
    dirs w !! input_path self = Some fs
    ∧ Forall2 (on_disk self w) (eligible_names self fs) docs
    ∧ input_jsons self w' = input_jsons self w ++ docs
    ∧ files w' = files w ∧ dirs w' = dirs w.
Proof.
  intros Hrun. pose proof (read_json_files self w) as [Hf Hd].
  rewrite Hrun in Hf, Hd. cbn in Hf, Hd.
  unfold read_json, listdir in Hrun.
  destruct (dirs w !! input_path self) as [fs|]; [|discriminate].
  apply read_json_loop_Ok in Hrun as (docs & Hdocs & Hlist).
  by exists fs, docs.
Qed.

Lemma read_json_appends_eligible_witness :
  read_json bar1 disk = (Ok (), loaded)
  ∧ ∃ fs docs,
      dirs disk !! input_path bar1 = Some fs
      ∧ Forall2 (on_disk bar1 disk) (eligible_names bar1 fs) docs
      ∧ input_jsons bar1 loaded = input_jsons bar1 disk ++ docs
      ∧ files loaded = files disk ∧ dirs loaded = dirs disk.
Proof.
  assert (read_json bar1 disk = (Ok (), loaded)) as Hrun
    by (vm_compute; reflexivity).
  split; [exact Hrun|].
  exact (read_json_appends_eligible bar1 disk loaded Hrun).
Defined.

(** X2: when an eligible file of the listing is missing or is not valid
    JSON, [read_json] raises at that file ([IOError] for a missing file,
    [ValueError] for a malformed one); the documents of the eligible files
    listed before it stay appended to the list, and the names listed after
    it are not read. *)
Theorem read_json_stops_at_bad_file (self : graph) (w : world)
    (before after : list string) (f : string) (docs : list json) :
  dirs w !! input_path self = Some (before ++ f :: after) →
  Forall2 (on_disk self w) (eligible_names self before) docs →
  eligible self f = true →
  (∀ j, ¬ on_disk self w f j) →
  ∃ w', read_json self w
        = (Raise (match files w !! (input_path self +:+ f) with
                  | None => IOError (input_path self +:+ f)
                  | Some _ => ValueError
                  end), w')
        ∧ input_jsons self w' = input_jsons self w ++ docs.
Proof.
  intros Hdir Hdocs Hel Hbad. unfold read_json, listdir. rewrite Hdir.
  destruct (read_json_loop_app self before w docs (f :: after) Hdocs)
    as (w1 & -> & Hlist & Hfiles).
  exists w1. split; [|done].
  cbn [read_json_loop]. rewrite Hel. unfold json_load. rewrite Hfiles.
  unfold on_disk in Hbad.
  destruct (files w !! (input_path self +:+ f)) as [[|j]|]; try done.
  by destruct (Hbad j).
Qed.

Lemma read_json_stops_at_bad_file_witness :
  dirs broken_disk !! input_path bar1
  = Some (["BFS_road.json"] ++ "BFS_bad.json" :: ["BFS_soc.json"])
  ∧ Forall2 (on_disk bar1 broken_disk)
            (eligible_names bar1 ["BFS_road.json"]) [doc road]
  ∧ eligible bar1 "BFS_bad.json" = true
  ∧ (∀ j, ¬ on_disk bar1 broken_disk "BFS_bad.json" j)
  ∧ ∃ w', read_json bar1 broken_disk
          = (Raise (match files broken_disk !! (input_path bar1 +:+ "BFS_bad.json") with
                    | None => IOError (input_path bar1 +:+ "BFS_bad.json")
                    | Some _ => ValueError
                    end), w')
          ∧ input_jsons bar1 w' = input_jsons bar1 broken_disk ++ [doc road].
Proof.
  assert (Forall2 (on_disk bar1 broken_disk)
            (eligible_names bar1 ["BFS_road.json"]) [doc road]) as Hdocs.
  { vm_compute. constructor; [reflexivity|constructor]. }
  assert (∀ j, ¬ on_disk bar1 broken_disk "BFS_bad.json" j) as Hbad.
  { intros j. vm_compute. discriminate. }
  split_and!; [reflexivity|exact Hdocs|reflexivity|exact Hbad|].
  exact (read_json_stops_at_bad_file bar1 broken_disk ["BFS_road.json"]
           ["BFS_soc.json"] "BFS_bad.json" [doc road]
           eq_refl Hdocs eq_refl Hbad).
Defined.

(** X3: in a store where every instance attribute [__input_jsons] is the
    list of the class, as in a store where no object has loaded yet, any
    two objects read the same list; [read_json] keeps the store so,
    whether it returns or raises, and what it has appended for one object
    is in the list of every other. *)
Theorem input_jsons_is_one_list (w : world) :
  store_shared w →
  (∀ self other, input_jsons self w = input_jsons other w)
  ∧ ∀ self other,
      store_shared (read_json self w).2
      ∧ input_jsons other (read_json self w).2
        = input_jsons self (read_json self w).2.
Proof.
  intros Hw. split.
  - intros self other. by apply input_jsons_shared.
  - intros self other.
    assert (store_shared (read_json self w).2) as Hw'.
    { unfold read_json. destruct (listdir w _); [|done].
      by apply read_json_loop_shared. }
    split; [done|]. by apply input_jsons_shared.
Qed.

Lemma input_jsons_is_one_list_witness :
  store_shared disk
  ∧ (∀ self other, input_jsons self disk = input_jsons other disk)
  ∧ ∀ self other,
      store_shared (read_json self disk).2
      ∧ input_jsons other (read_json self disk).2
        = input_jsons self (read_json self disk).2.
Proof.
  assert (store_shared disk) as Hw.
  { intros i r. vm_compute. discriminate. }
  split; [exact Hw|]. exact (input_jsons_is_one_list disk Hw).
Defined.

(** ** Edges of the pipeline *)

Section Edges.

Import pandas.

Lemma column_dtypes_nil : column_dtypes [] = ∅.
Proof.
  apply map_eq. intros c. rewrite column_dtypes_lookup, lookup_empty.
  destruct (decide _) as [Hin|]; [|done].
  apply elem_of_columns in Hin as (r & Hr & _). by apply elem_of_nil in Hr.
Qed.

Lemma restrict_Raise P df e :
  restrict P df = Raise e → ∃ k, e = KeyError k ∧ is_Some (P !! k).
Proof.
  intros (k & v & Hin%elem_of_map_to_list & _ & ->)%restrict_list_Raise.
  exists k. split; [done|by eexists].
Qed.

Lemma frame_eq (df df' : frame) :
  dtypes df = dtypes df' → index_name df = index_name df' →
  index_dtype df = index_dtype df' → rows df = rows df' → df = df'.
Proof. destruct df, df'. cbn. by intros -> -> -> ->. Qed.

End Edges.

(** X4: with no document loaded, [parse_jsons] of every class raises
    [KeyError]: the frame of an empty list has no column, so the first
    column the method asks for is missing (a key of the conditions, the
    field of the x axis, or [dataset] in the heatmap), unless the axis
    mapping itself lacks ["x"]. *)
Theorem parse_jsons_of_nothing (self : graph) (w : world) :
  input_jsons self w = [] →
  ∃ k, parse_jsons self w = Raise (KeyError k).
Proof.
  intros Hnil.
  assert (pandas.dtypes (base_parse_jsons self w) = ∅) as Hcols.
  { unfold base_parse_jsons. rewrite Hnil. apply column_dtypes_nil. }
  unfold parse_jsons, parse_jsons_heatmap, parse_jsons_barbase.
  destruct (restrict (conditions_dict self) (base_parse_jsons self w))
    as [df|e] eqn:Hres.
  - apply restrict_Ok in Hres as (_ & Hd & _). rewrite Hcols in Hd.
    assert (∃ k, project_axes (axes_vars self) df = Raise (KeyError k)) as [k Hp].
    { unfold project_axes, dict_getitem.
      destruct (axes_vars self !! "x") as [cx|]; [|by eexists].
      cbn. unfold pandas.set_index. rewrite Hd, lookup_empty. by eexists. }
    assert (heatmap_columns df = Raise (KeyError "dataset")) as Hh.
    { unfold heatmap_columns, pandas.getitem_list. by rewrite Hd. }
    destruct (class_of self); cbn; rewrite ?Hp, ?Hh; by eexists.
  - apply restrict_Raise in Hres as (k & -> & _).
    destruct (class_of self); cbn; by eexists.
Qed.

Lemma parse_jsons_of_nothing_witness :
  input_jsons bar1 disk = []
  ∧ ∃ k, parse_jsons bar1 disk = Raise (KeyError k).
Proof.
  split; [reflexivity|].
  apply (parse_jsons_of_nothing bar1 disk). reflexivity.
Defined.

(** X5: the projection on the axes returns exactly when the axis mapping
    has ["x"] and ["y"], both name columns of the filtered frame, and the
    two columns differ; with the same field on both axes it raises
    [KeyError], because [set_index] has taken the column away. *)
Theorem project_axes_defined (axes : gmap string string) (df : pandas.frame) :
  (is_Ok (project_axes axes df) ↔
   ∃ cx cy, axes !! "x" = Some cx ∧ axes !! "y" = Some cy
            ∧ is_Some (pandas.dtypes df !! cx)
            ∧ is_Some (pandas.dtypes df !! cy) ∧ cx ≠ cy)
  ∧ ∀ c, axes !! "x" = Some c → axes !! "y" = Some c →
         is_Some (pandas.dtypes df !! c) →
         project_axes axes df = Raise (KeyError c).
Proof.
  split; [split|].
  - intros [out Hrun].
    destruct (project_axes_keys _ _ _ Hrun) as (cx & cy & Hx & Hy).
    destruct (project_axes_Ok _ _ _ _ _ Hx Hy Hrun)
      as (dtx & dty & Hdx & Hdy & Hne & _).
    exists cx, cy. by rewrite Hdx, Hdy.
  - intros (cx & cy & Hx & Hy & Hdx & Hdy & Hne).
    by eapply project_axes_is_Ok.
  - intros c Hx Hy [dt Hc]. unfold project_axes, dict_getitem.
    rewrite Hx, Hy. cbn. unfold pandas.set_index. rewrite Hc. cbn.
    unfold pandas.getitem. cbn. by rewrite lookup_delete_eq.
Qed.

Lemma project_axes_defined_witness :
  dataset_twice !! "x" = Some "dataset"
  ∧ dataset_twice !! "y" = Some "dataset"
  ∧ is_Some (pandas.dtypes road_only !! "dataset")
  ∧ project_axes dataset_twice road_only = Raise (KeyError "dataset").
Proof.
  assert (is_Some (pandas.dtypes road_only !! "dataset")) as Hc.
  { vm_compute. by eexists. }
  split_and!; [reflexivity|reflexivity|exact Hc|].
  exact (proj2 (project_axes_defined dataset_twice road_only)
           "dataset" eq_refl eq_refl Hc).
Defined.

(** X6: filtering a second time by the same conditions changes nothing:
    the loop returns on its own result and returns that very frame. *)
Theorem restrict_idempotent (P : gmap string value) (df df' : pandas.frame) :
  restrict P df = Ok df' → restrict P df' = Ok df'.
Proof.
  intros (Hdom & Hd & Hn & Hi & Hr)%restrict_Ok.
  destruct (restrict_is_Ok P df') as [df'' Hrun]; [by rewrite Hd|].
  rewrite Hrun. f_equal.
  apply restrict_Ok in Hrun as (_ & Hd' & Hn' & Hi' & Hr').
  apply frame_eq; try done.
  rewrite Hr', Hr, list_filter_filter. apply list_filter_iff. tauto.
Qed.

Lemma restrict_idempotent_witness :
  restrict bfs_undirected road_soc = Ok road_only
  ∧ restrict bfs_undirected road_only = Ok road_only.
Proof.
  assert (restrict bfs_undirected road_soc = Ok road_only) as Hrun
    by (vm_compute; reflexivity).
  split; [exact Hrun|].
  exact (restrict_idempotent bfs_undirected road_soc road_only Hrun).
Defined.

(** ** What the merge writes *)

Section Slots.

Lemma dict_getitem_Ok {A} (d : gmap string A) k a :
  dict_getitem d k = Ok a → d !! k = Some a.
Proof.
  unfold dict_getitem. destruct (d !! k); [|discriminate]. by intros [= ->].
Qed.

Lemma different_heads_not_touching a s b q :
  a ≠ b → ¬ touches (a :: s) (b :: q).
Proof.
  intros Hne [Hp|Hp]; apply prefix_cons_inv_1 in Hp; congruence.
Qed.

(** The six assignments of the merge, one after the other. *)
Lemma complete_bar_steps axes xl yl df tmpl spec :
  complete_bar axes xl yl df tmpl = Ok spec →
  ∃ x y b1 b2 b3 b4 b5,
    axes !! "x" = Some x ∧ axes !! "y" = Some y
    ∧ setitem_at [] "data" (data_values df) tmpl = Ok b1
    ∧ setitem_at ["encoding"; "y"] "field" (JScalar (VStr y)) b1 = Ok b2
    ∧ setitem_at ["encoding"; "y"] "axis" (title yl) b2 = Ok b3
    ∧ for_each (set_axis_type df) b3 (map_to_list axes) = Ok b4
    ∧ setitem_at ["encoding"; "x"] "field" (JScalar (VStr x)) b4 = Ok b5
    ∧ setitem_at ["encoding"; "x"] "axis" (title xl) b5 = Ok spec.
Proof.
  unfold complete_bar. intros Hrun.
  apply bind_Ok in Hrun as (b1 & H1 & Hrun).
  apply bind_Ok in Hrun as (y & Hy%dict_getitem_Ok & Hrun).
  apply bind_Ok in Hrun as (b2 & H2 & Hrun).
  apply bind_Ok in Hrun as (b3 & H3 & Hrun).
  apply bind_Ok in Hrun as (b4 & H4 & Hrun).
  apply bind_Ok in Hrun as (x & Hx%dict_getitem_Ok & Hrun).
  apply bind_Ok in Hrun as (b5 & H5 & H6).
  exists x, y, b1, b2, b3, b4, b5. by split_and!.
Qed.

(** The loop over the axes leaves alone what is no [type] of an axis. *)
Lemma set_axis_types_frame df l bar bar' q :
  for_each (set_axis_type df) bar l = Ok bar' →
  (∀ k, ¬ touches ["encoding"; k; "type"] q) →
  get_path q bar' = get_path q bar.
Proof.
  intros Hrun Hq.
  eapply (written_frame ((λ kc, ["encoding"; kc.1; "type"]) <$> l)).
  - eapply set_axis_types_written; [|exact Hrun].
    intros kc Hkc.
    by apply (list_elem_of_fmap_2 (λ kc, ["encoding"; kc.1; "type"])).
  - intros s' (kc & -> & _)%list_elem_of_fmap. apply Hq.
Qed.

End Slots.

(** X7: the specification a bar or scatter object assembles holds, under
    [data], the records of the projected frame as [values]; under
    [encoding], for the x and the y axis, the field the axis mapping names
    as [field] and the label of the object as the [title] of [axis]. *)
Theorem bar_slots_filled (self : graph) (w : world) (spec : json) :
  class_of self ≠ VegaGraphHeatmap →
  parse_jsons self w = Ok spec →
  ∃ cx cy filtered out,
    axes_vars self !! "x" = Some cx ∧ axes_vars self !! "y" = Some cy
    ∧ restrict (conditions_dict self) (base_parse_jsons self w) = Ok filtered
    ∧ project_axes (axes_vars self) filtered = Ok out
    ∧ get_path ["data"] spec
      = Some (JDict {[ "values" := records_json (pandas.to_dict_records out) ]})
    ∧ get_path ["encoding"; "x"; "field"] spec = Some (JScalar (VStr cx))
    ∧ get_path ["encoding"; "y"; "field"] spec = Some (JScalar (VStr cy))
    ∧ get_path ["encoding"; "x"; "axis"] spec
      = Some (JDict {[ "title" := JScalar (VStr (x_axis_label self)) ]})
    ∧ get_path ["encoding"; "y"; "axis"] spec
      = Some (JDict {[ "title" := JScalar (VStr (y_axis_label self)) ]}).
Proof.
  intros Hcls Hrun.
  assert (parse_jsons_barbase self w = Ok spec) as Hbar.
  { unfold parse_jsons in Hrun. by destruct (class_of self). }
  clear Hrun. unfold parse_jsons_barbase in Hbar.
  apply bind_Ok in Hbar as (filtered & Hres & Hbar).
  apply bind_Ok in Hbar as (out & Hproj & Hbar).
  apply bind_Ok in Hbar as (tmpl & _ & Hbar).
  apply complete_bar_steps in Hbar
    as (x & y & b1 & b2 & b3 & b4 & b5 & Hx & Hy & H1 & H2 & H3 & H4 & H5 & H6).
  exists x, y, filtered, out. split_and!; try done.
  - rewrite (setitem_at_frame _ _ _ _ _ _ H6),
            (setitem_at_frame _ _ _ _ _ _ H5),
            (set_axis_types_frame _ _ _ _ _ H4),
            (setitem_at_frame _ _ _ _ _ _ H3),
            (setitem_at_frame _ _ _ _ _ _ H2);
      try (by apply different_heads_not_touching);
      [|intros k; by apply different_heads_not_touching].
    apply (setitem_at_slot [] "data" _ _ _ [] H1).
  - rewrite (setitem_at_frame _ _ _ _ _ _ H6)
      by by apply equal_length_not_touching.
    apply (setitem_at_slot ["encoding"; "x"] "field" _ _ _ [] H5).
  - rewrite (setitem_at_frame _ _ _ _ _ _ H6),
            (setitem_at_frame _ _ _ _ _ _ H5),
            (set_axis_types_frame _ _ _ _ _ H4),
            (setitem_at_frame _ _ _ _ _ _ H3);
      try (by apply equal_length_not_touching);
      [|intros k; by apply equal_length_not_touching].
    apply (setitem_at_slot ["encoding"; "y"] "field" _ _ _ [] H2).
  - apply (setitem_at_slot ["encoding"; "x"] "axis" _ _ _ [] H6).
  - rewrite (setitem_at_frame _ _ _ _ _ _ H6),
            (setitem_at_frame _ _ _ _ _ _ H5),
            (set_axis_types_frame _ _ _ _ _ H4);
      try (by apply equal_length_not_touching);
      [|intros k; by apply equal_length_not_touching].
    apply (setitem_at_slot ["encoding"; "y"] "axis" _ _ _ [] H3).
Qed.

Lemma bar_slots_filled_witness :
  class_of bar1 ≠ VegaGraphHeatmap
  ∧ parse_jsons bar1 loaded = Ok assembled
  ∧ ∃ cx cy filtered out,
      axes_vars bar1 !! "x" = Some cx ∧ axes_vars bar1 !! "y" = Some cy
      ∧ restrict (conditions_dict bar1) (base_parse_jsons bar1 loaded)
        = Ok filtered
      ∧ project_axes (axes_vars bar1) filtered = Ok out
      ∧ get_path ["data"] assembled
        = Some (JDict {[ "values" := records_json (pandas.to_dict_records out) ]})
      ∧ get_path ["encoding"; "x"; "field"] assembled = Some (JScalar (VStr cx))
      ∧ get_path ["encoding"; "y"; "field"] assembled = Some (JScalar (VStr cy))
      ∧ get_path ["encoding"; "x"; "axis"] assembled
        = Some (JDict {[ "title" := JScalar (VStr (x_axis_label bar1)) ]})
      ∧ get_path ["encoding"; "y"; "axis"] assembled
        = Some (JDict {[ "title" := JScalar (VStr (y_axis_label bar1)) ]}).
Proof.
  split_and!; [discriminate|vm_compute; reflexivity|].
  apply (bar_slots_filled bar1 loaded assembled);
    [discriminate|vm_compute; reflexivity].
Defined.

(** ** More on the types of the axes *)

Section Storage.

Import pandas.

Lemma forallb_false {A} (f : A → bool) (l : list A) a :
  a ∈ l → f a = false → forallb f l = false.
Proof.
  intros Hin Hf. destruct (forallb f l) eqn:Hall; [|done].
  rewrite forallb_forall in Hall.
  rewrite <- Hf. symmetry. apply Hall. by apply list_elem_of_In.
Qed.

Lemma infer_dtype_ints vs :
  vs ≠ [] → Forall (λ v, ∃ z, v = VInt z) vs → infer_dtype vs = int64.
Proof.
  intros Hne Hall. destruct vs as [|v vs]; [done|].
  unfold infer_dtype.
  inversion Hall as [|? ? [z ->] Hrest]; subst.
  rewrite (forallb_false is_bool _ (VInt z)); [|by left|done].
  replace (forallb is_int (VInt z :: vs)) with true; [done|].
  symmetry. apply forallb_forall. intros v Hv%list_elem_of_In.
  rewrite Forall_forall in Hall. by destruct (Hall v Hv) as [? ->].
Qed.


Lemma column_dtypes_ints T c dt :
  column_dtypes T !! c = Some dt →
  Forall (λ r, ∃ z, r !! c = Some (VInt z)) T → dt = int64.
Proof.
  rewrite column_dtypes_lookup. destruct (decide _) as [Hin|]; [|done].
  intros [= <-] Hall. apply infer_dtype_ints.
  - apply elem_of_columns in Hin as (r & Hr & _).
    intros Hnil%fmap_nil_inv. subst. by apply elem_of_nil in Hr.
  - apply Forall_fmap. eapply Forall_impl; [exact Hall|].
    intros r [z Hz]. exists z. cbn. unfold cell. by rewrite Hz.
Qed.


(** The type of an axis follows the storage type of its column in the
    frame of all loaded records, unless that column holds objects. *)
Lemma bar_axis_storage self w spec k col :
  class_of self ≠ VegaGraphHeatmap →
  parse_jsons self w = Ok spec →
  axes_vars self !! k = Some col →
  ∃ dtc dt,
    column_dtypes (record_of <$> input_jsons self w) !! col = Some dtc
    ∧ (dtc ≠ object_ → dt = dtc)
    ∧ get_path ["encoding"; k; "type"] spec
      = Some (JScalar (VStr (if decide (dt = float64)
                             then "quantitative" else "ordinal"))).
Proof.
  intros Hcls Hrun Hk.
  assert (parse_jsons_barbase self w = Ok spec) as Hbar.
  { unfold parse_jsons in Hrun. by destruct (class_of self). }
  clear Hrun. unfold parse_jsons_barbase, base_parse_jsons in Hbar.
  set (T := record_of <$> input_jsons self w) in *.
  apply bind_Ok in Hbar as (df1 & Hres & Hbar).
  apply bind_Ok in Hbar as (df2 & Hproj & Hbar).
  apply bind_Ok in Hbar as (tmpl & _ & Hbar).
  destruct (project_axes_keys _ _ _ Hproj) as (cx & cy & Hx & Hy).
  destruct (project_axes_Ok _ _ _ _ _ Hx Hy Hproj)
    as (dtx & dty & Hdtx & Hdty & Hne & Hdts & _).
  destruct (complete_bar_types _ _ _ _ _ _ _ _ Hbar Hk) as (t & Ht & ->).
  apply axis_type_Ok in Ht as (dt & Hdt & ->).
  apply restrict_Ok in Hres as (_ & Hd1 & _).
  rewrite Hd1, DataFrame_dtypes in Hdtx, Hdty.
  rewrite Hdts in Hdt.
  destruct (decide (col = cx)) as [->|Hcol].
  - rewrite lookup_insert_eq in Hdt. injection Hdt as <-.
    exists dtx. eexists. split_and!; [done| |done].
    intros Hobj. by destruct (decide (dtx = object_)).
  - rewrite lookup_insert_ne in Hdt by done.
    apply lookup_singleton_Some in Hdt as [<- <-].
    exists dty, dty. by split_and!.
Qed.

End Storage.

(** X8: an axis whose field is an integer in every loaded record is
    ordinal, not quantitative: its column is stored as [int64], and only
    [float64] makes an axis quantitative. *)
Theorem integer_axis_is_ordinal (self : graph) (w : world) (spec : json)
    (k col : string) :
  class_of self ≠ VegaGraphHeatmap →
  parse_jsons self w = Ok spec →
  axes_vars self !! k = Some col →
  Forall (λ r, ∃ z, r !! col = Some (VInt z))
         (record_of <$> input_jsons self w) →
  get_path ["encoding"; k; "type"] spec = Some (JScalar (VStr "ordinal")).
Proof.
  intros Hcls Hrun Hk Hall.
  destruct (bar_axis_storage _ _ _ _ _ Hcls Hrun Hk)
    as (dtc & dt & Hdtc & Hdt & ->).
  rewrite (column_dtypes_ints _ _ _ Hdtc Hall) in Hdt.
  by rewrite Hdt.
Qed.

Lemma integer_axis_is_ordinal_witness :
  class_of iterations_bar ≠ VegaGraphHeatmap
  ∧ parse_jsons iterations_bar counts_loaded = Ok iterations_spec
  ∧ axes_vars iterations_bar !! "y" = Some "iterations"
  ∧ Forall (λ r, ∃ z, r !! "iterations" = Some (VInt z))
           (record_of <$> input_jsons iterations_bar counts_loaded)
  ∧ get_path ["encoding"; "y"; "type"] iterations_spec
    = Some (JScalar (VStr "ordinal")).
Proof.
  assert (Forall (λ r, ∃ z, r !! "iterations" = Some (VInt z))
            (record_of <$> input_jsons iterations_bar counts_loaded)) as Hall.
  { vm_compute. repeat constructor; by eexists. }
  split_and!; [discriminate|vm_compute; reflexivity|reflexivity|exact Hall|].
  apply (integer_axis_is_ordinal iterations_bar counts_loaded iterations_spec
           "y" "iterations");
    [discriminate|vm_compute; reflexivity|reflexivity|exact Hall].
Defined.




(** ** When [parse_jsons] returns *)

Section Returns.

Import pandas.

Lemma setitem_at_is_Ok p k v : ∀ j m,
  get_path p j = Some (JDict m) → is_Ok (setitem_at p k v j).
Proof.
  induction p as [|k0 p IH]; intros j m Hget.
  - injection Hget as ->. by eexists.
  - destruct j as [| | |m0]; try discriminate. cbn in Hget.
    destruct (m0 !! k0) as [c|] eqn:Hc; [|discriminate]. cbn in Hget.
    destruct (IH c m Hget) as [c' Hc'].
    cbn. unfold dict_getitem. rewrite Hc. cbn. rewrite Hc'. by eexists.
Qed.

Lemma setitem_at_dict p k v : ∀ j j',
  setitem_at p k v j = Ok j' → ∃ m, get_path p j' = Some (JDict m).
Proof.
  induction p as [|k0 p IH]; intros j j' Hset.
  - apply py_setitem_Ok in Hset as (m & -> & ->). by eexists.
  - apply setitem_at_cons_Ok in Hset as (m & c & c' & -> & Hc & Hset & ->).
    cbn. rewrite lookup_insert_eq. cbn. by eapply IH.
Qed.

Lemma axes_are_dicts_dict bar : axes_are_dicts bar → ∃ m, bar = JDict m.
Proof.
  intros H. destruct (H "x") as [m Hm]; [by left|].
  destruct bar; try discriminate. by eexists.
Qed.

Lemma axes_kept_by_data v j j' :
  axes_are_dicts j → setitem_at [] "data" v j = Ok j' → axes_are_dicts j'.
Proof.
  intros Hj Hset a Ha.
  rewrite (setitem_at_frame _ _ _ _ _ _ Hset); [by apply Hj|].
  by apply different_heads_not_touching.
Qed.

Lemma axes_kept_by_axis a0 k v j j' :
  axes_are_dicts j → setitem_at ["encoding"; a0] k v j = Ok j' →
  axes_are_dicts j'.
Proof.
  intros Hj Hset a Ha. destruct (decide (a = a0)) as [->|Hne].
  - by eapply setitem_at_dict.
  - rewrite (setitem_at_frame _ _ _ _ _ _ Hset); [by apply Hj|].
    intros [Hp|Hp].
    + apply prefix_length in Hp. cbn in Hp. lia.
    + apply prefix_cons_inv_2, prefix_cons_inv_1 in Hp. done.
Qed.

Lemma set_axis_types_is_Ok df l : ∀ bar,
  axes_are_dicts bar →
  (∀ kc, kc ∈ l → kc.1 ∈ ["x"; "y"] ∧ is_Some (dtypes df !! kc.2)) →
  ∃ bar', for_each (set_axis_type df) bar l = Ok bar' ∧ axes_are_dicts bar'.
Proof.
  induction l as [|[k c] l IH]; intros bar Hbar Hl; cbn [for_each].
  - by exists bar.
  - destruct (Hl (k, c)) as [Hk [dt Hc]]; [by left|]. cbn in Hk, Hc.
    destruct (Hbar k Hk) as [m Hm].
    destruct (setitem_at_is_Ok ["encoding"; k] "type"
                (JScalar (VStr (if decide (dt = float64)
                                then "quantitative" else "ordinal")))
                bar m Hm) as [bar1 Hset].
    assert (set_axis_type df bar (k, c) = Ok bar1) as ->.
    { unfold set_axis_type, axis_type, getitem. cbn [fst snd].
      rewrite Hc. cbn. exact Hset. }
    cbn. apply IH.
    + by eapply axes_kept_by_axis.
    + intros kc Hkc. apply Hl. by right.
Qed.

Lemma complete_bar_is_Ok cx cy xl yl df tmpl :
  axes_are_dicts tmpl →
  is_Some (dtypes df !! cx) → is_Some (dtypes df !! cy) →
  is_Ok (complete_bar {[ "x" := cx; "y" := cy ]} xl yl df tmpl).
Proof.
  intros Htmpl Hcx Hcy. unfold complete_bar.
  assert (({[ "x" := cx; "y" := cy ]} : gmap string string) !! "y" = Some cy)
    as Hy by by rewrite lookup_insert_ne, lookup_singleton_eq.
  assert (({[ "x" := cx; "y" := cy ]} : gmap string string) !! "x" = Some cx)
    as Hx by by rewrite lookup_insert_eq.
  destruct (axes_are_dicts_dict _ Htmpl) as [m0 ->].
  cbn [py_setitem]. cbn [mbind result_bind].
  set (b1 := JDict (<["data":=data_values df]> m0)).
  assert (axes_are_dicts b1) as Hb1.
  { by apply (axes_kept_by_data (data_values df) (JDict m0)). }
  unfold dict_getitem. rewrite Hy.
  cbn [mbind result_bind].
  destruct (Hb1 "y") as [my Hmy]; [set_solver|].
  destruct (setitem_at_is_Ok ["encoding"; "y"] "field" (JScalar (VStr cy))
              b1 my Hmy) as [b2 H2].
  rewrite H2. cbn [mbind result_bind].
  pose proof (axes_kept_by_axis _ _ _ _ _ Hb1 H2) as Hb2.
  destruct (Hb2 "y") as [my2 Hmy2]; [set_solver|].
  destruct (setitem_at_is_Ok ["encoding"; "y"] "axis" (title yl)
              b2 my2 Hmy2) as [b3 H3].
  rewrite H3. cbn [mbind result_bind].
  pose proof (axes_kept_by_axis _ _ _ _ _ Hb2 H3) as Hb3.
  destruct (set_axis_types_is_Ok df
              (map_to_list ({[ "x" := cx; "y" := cy ]} : gmap string string))
              b3 Hb3) as (b4 & H4 & Hb4).
  { intros [k c] Hkc%elem_of_map_to_list. cbn.
    apply lookup_insert_Some in Hkc as [[<- <-]|[_ Hkc]].
    - split; [by left|done].
    - apply lookup_singleton_Some in Hkc as [<- <-].
      split; [set_solver|done]. }
  rewrite H4. cbn [mbind result_bind].
  rewrite Hx. cbn [mbind result_bind].
  destruct (Hb4 "x") as [mx Hmx]; [by left|].
  destruct (setitem_at_is_Ok ["encoding"; "x"] "field" (JScalar (VStr cx))
              b4 mx Hmx) as [b5 H5].
  rewrite H5. cbn [mbind result_bind].
  pose proof (axes_kept_by_axis _ _ _ _ _ Hb4 H5) as Hb5.
  destruct (Hb5 "x") as [mx5 Hmx5]; [by left|].
  by apply (setitem_at_is_Ok ["encoding"; "x"] "axis" (title xl) b5 mx5).
Qed.

End Returns.

(** X11: [parse_jsons] of a bar or scatter object returns a specification
    whenever the axis mapping has just ["x"] and ["y"], naming two different
    fields, every key of the conditions and both fields occur in some
    loaded record, and the template of the chart type is on the disk with
    a dict under [encoding] for each of the two axes. *)
Theorem bar_parse_jsons_returns (self : graph) (w : world) (cx cy : string)
    (tmpl : json) :
  class_of self ≠ VegaGraphHeatmap →
  axes_vars self = {[ "x" := cx; "y" := cy ]} →
  cx ≠ cy →
  dom (conditions_dict self) ∪ {[ cx; cy ]}
    ⊆ ⋃ (dom <$> (record_of <$> input_jsons self w)) →
  read_config self w = Ok tmpl →
  axes_are_dicts tmpl →
  is_Ok (parse_jsons self w).
Proof.
  intros Hcls Haxes Hne Hcols Hcfg Htmpl.
  assert (parse_jsons self w = parse_jsons_barbase self w) as ->.
  { unfold parse_jsons. by destruct (class_of self). }
  unfold parse_jsons_barbase, base_parse_jsons.
  set (T := record_of <$> input_jsons self w) in *.
  destruct (restrict_is_Ok (conditions_dict self) (pandas.DataFrame T))
    as [filtered Hres].
  { rewrite DataFrame_dtypes, dom_column_dtypes. set_solver. }
  rewrite Hres. cbn [mbind result_bind].
  pose proof Hres as (_ & Hd & _)%restrict_Ok.
  assert (∀ c, c ∈ ({[ cx; cy ]} : gset string) →
               is_Some (pandas.dtypes filtered !! c)) as Hin.
  { intros c Hmem. rewrite Hd, DataFrame_dtypes.
    apply elem_of_dom. rewrite dom_column_dtypes.
    apply Hcols, elem_of_union. by right. }
  assert (axes_vars self !! "x" = Some cx) as Hx
    by by rewrite Haxes, lookup_insert_eq.
  assert (axes_vars self !! "y" = Some cy) as Hy
    by by rewrite Haxes, lookup_insert_ne, lookup_singleton_eq.
  destruct (project_axes_is_Ok (axes_vars self) filtered cx cy)
    as [out Hproj]; [done|done|apply Hin; set_solver|apply Hin; set_solver|done|].
  rewrite Hproj. cbn [mbind result_bind].
  rewrite Hcfg. cbn [mbind result_bind].
  destruct (project_axes_Ok _ _ _ _ _ Hx Hy Hproj)
    as (dtx & dty & _ & _ & _ & Hdts & _).
  rewrite Haxes. apply complete_bar_is_Ok; [done| |]; rewrite Hdts.
  - rewrite lookup_insert_eq. by eexists.
  - rewrite lookup_insert_ne, lookup_singleton_eq by done. by eexists.
Qed.

Lemma bar_parse_jsons_returns_witness :
  class_of bar1 ≠ VegaGraphHeatmap
  ∧ axes_vars bar1 = {[ "x" := "dataset"; "y" := "m_teps" ]}
  ∧ "dataset" ≠ "m_teps"
  ∧ dom (conditions_dict bar1) ∪ {[ "dataset"; "m_teps" ]}
      ⊆ ⋃ (dom <$> (record_of <$> input_jsons bar1 loaded))
  ∧ read_config bar1 loaded = Ok bar_template
  ∧ axes_are_dicts bar_template
  ∧ is_Ok (parse_jsons bar1 loaded).
Proof.
  assert (dom (conditions_dict bar1) ∪ {[ "dataset"; "m_teps" ]}
            ⊆ ⋃ (dom <$> (record_of <$> input_jsons bar1 loaded))) as Hcols.
  { apply (bool_decide_unpack _). vm_compute. exact I. }
  assert (axes_are_dicts bar_template) as Htmpl.
  { intros a [->|[->|[]%elem_of_nil]%elem_of_cons]%elem_of_cons;
      vm_compute; by eexists. }
  assert (read_config bar1 loaded = Ok bar_template) as Hcfg
    by (vm_compute; reflexivity).
  split_and!; [discriminate|reflexivity|discriminate|exact Hcols|exact Hcfg|
               exact Htmpl|].
  exact (bar_parse_jsons_returns bar1 loaded "dataset" "m_teps" bar_template
           ltac:(discriminate) eq_refl ltac:(discriminate) Hcols Hcfg Htmpl).
Defined.



Section HeatmapEdges.

Import pandas.



End HeatmapEdges.



(** X14: the result of the filter does not depend on the order in which
    the dictionary of conditions is gone through: when the loop returns a
    frame, the loop over the same entries in any other order returns the
    same frame. *)
Theorem restrict_any_order (P : gmap string value) (df df' : pandas.frame)
    (l : list (string * value)) :
  l ≡ₚ map_to_list P →
  restrict P df = Ok df' →
  for_each restrict_step df l = Ok df'.
Proof.
  intros Hperm Hrun.
  pose proof Hrun as (Hks & Hd & Hn & Hi & Hr)%restrict_list_Ok.
  destruct (restrict_list_is_Ok l df) as [df'' Hrun'].
  { intros kv Hkv. apply Hks. by rewrite <- Hperm. }
  rewrite Hrun'. f_equal.
  apply restrict_list_Ok in Hrun' as (_ & Hd' & Hn' & Hi' & Hr').
  apply frame_eq; try congruence.
  rewrite Hr', Hr. apply list_filter_iff. intros ir.
  unfold row_matches. by rewrite Hperm.
Qed.

Lemma restrict_any_order_witness :
  [("undirected", VBool true); ("mark_predecessors", VBool true);
   ("algorithm", VStr "BFS")] ≡ₚ map_to_list bfs_undirected
  ∧ restrict bfs_undirected road_soc = Ok road_only
  ∧ for_each restrict_step road_soc
      [("undirected", VBool true); ("mark_predecessors", VBool true);
       ("algorithm", VStr "BFS")]
    = Ok road_only.
Proof.
  assert ([("undirected", VBool true); ("mark_predecessors", VBool true);
           ("algorithm", VStr "BFS")] ≡ₚ map_to_list bfs_undirected) as Hperm.
  { apply (bool_decide_unpack _). vm_compute. exact I. }
  assert (restrict bfs_undirected road_soc = Ok road_only) as Hrun
    by (vm_compute; reflexivity).
  split_and!; [exact Hperm|exact Hrun|].
  exact (restrict_any_order bfs_undirected road_soc road_only _ Hperm Hrun).
Defined.
